(** * The Open JTalk output module of Speech Dispatcher

    A shallow embedding of [src/modules/openjtalk.c]: the search for the
    voice model file, the parameter update that precedes a speak request,
    the fixed-offset reader of the engine's wav output and the speak
    request itself, with the properties the specification states about
    them.

    Conventions.
    - C strings are [string]; a [char *] that may be [NULL] is an
      [option string].
    - Unsigned machine integers are [Z] with the wrap-around written out.
    - Every call that leaves the module (GLib, libc, the Speech Dispatcher
      module framework) is recorded as an [event] together with the value
      it returned; the answers of the outside come from a [world].
    - Code runs in the monad [M S]: a state of type [S], the trace of
      events emitted so far, and a result that is either a value or a
      trap (a failed [assert], an integer division by zero), after which
      nothing more is executed. *)

From Stdlib Require Import ZArith List String Ascii Bool Lia.
From Stdlib Require Import Strings.Byte.
Import ListNotations.

Local Open Scope string_scope.
Local Open Scope list_scope.
Local Open Scope Z_scope.

(** ** Data *)

(** [SPDVoiceType] is a C enumeration of the framework: an [int]. *)
Definition SPDVoiceType : Type := Z.

(** [AudioFormat]: the module only ever passes [SPD_AUDIO_LE]. *)
Inductive AudioFormat : Type := SPD_AUDIO_LE | SPD_AUDIO_BE.

(** The part of [SPDMsgSettings] the module reads:
    [voice.language], [voice_type] and [voice.name]. *)
Record SPDMsgSettings : Type := {
  voice_language : option string;
  voice_type : SPDVoiceType;
  voice_name : option string
}.

(** A block obtained from [malloc]: the size asked for and the bytes that
    [fread] stored into it. *)
Record buffer : Type := {
  buf_size : Z;
  buf_data : list byte
}.

(** Modelled from the spec: the declaration of [AudioTrack] (a header of the
    framework) is not among the sources; the field widths are those of the
    specification's data model: [bits] and [num_channels] are 16-bit
    unsigned, [sample_rate] and [num_samples] 32-bit unsigned, [samples] is
    the owned buffer or [NULL]. *)
Record AudioTrack : Type := {
  bits : Z;
  num_channels : Z;
  sample_rate : Z;
  num_samples : Z;
  samples : option buffer
}.

(** The five reads of the wav reader, in program order. *)
Inductive wav_step : Type :=
  StepBits | StepChannels | StepSampleRate | StepSizeOfSamples | StepSamples.

(** The file-scope variables of the module together with the two settings
    tables of the framework.  [n_voice_search_paths] is the length of
    [voice_search_paths]. *)
Record globals : Type := {
  OpenjtalkDictionaryDirectory : string;
  voice_search_paths : list string;
  openjtalk_msg_voice_str : option string;
  openjtalk_msg_language : option string;
  openjtalk_htsvoice_path : option string;
  msg_settings : SPDMsgSettings;
  msg_settings_old : SPDMsgSettings
}.

(** An open [FILE *] on a regular file: its bytes and the file position. *)
Record FILE : Type := {
  f_data : list byte;
  f_pos : Z
}.

(** What the outside answers during one speak request. *)
Record world : Type := {
  (** voice registry of the framework *)
  module_getvoice : string -> SPDVoiceType -> option string;
  module_existsvoice : string -> bool;
  (** [g_file_test (path, G_FILE_TEST_EXISTS)] *)
  g_file_test : string -> bool;
  module_strip_ssml : string -> string;
  (** [mkstemp]: the name of the file created, or [None] for [-1] *)
  mkstemp : string -> option string;
  (** whether [asprintf] could allocate the command line *)
  asprintf_ok : bool;
  (** whether [popen] started the command *)
  popen_ok : string -> bool;
  (** what [pclose] returns once the engine has been fed the text *)
  pclose_status : string -> string -> Z;
  (** [fopen (path, "rb")]: the bytes of the file, or [None] for [NULL] *)
  fopen : string -> option (list byte)
}.

(** ** Events and the execution monad *)

(** What a call of [free] releases. *)
Inductive freed : Type := FreedCmd | FreedSamples | FreedPlainData.

(** One event per call out of the module, with the arguments and the
    returned value that matter: [EvDbg] for [DBG], [EvFileTest] for
    [g_file_test], [EvGetvoice] and [EvExistsvoice] for the voice registry,
    [EvSpeakError], [EvSpeakOk], [EvReportEventBegin], [EvReportEventEnd]
    and [EvTtsOutput] for the framework, the others for libc.
    [EvUpdateHtsvoicePath] marks the entry of [update_htsvoice_path]. *)
Inductive event : Type :=
| EvDbg (msg : string)
| EvUpdateHtsvoicePath
| EvFileTest (path : string) (found : bool)
| EvGetvoice (lang : string) (voice : SPDVoiceType) (r : option string)
| EvExistsvoice (name : string) (r : bool)
| EvSpeakError
| EvSpeakOk
| EvReportEventBegin
| EvReportEventEnd
| EvUmask (mask : Z)
| EvMkstemp (r : option string)
| EvClose
| EvAsprintf (r : option string)
| EvPopen (cmd : string) (ok : bool)
| EvFprintf (text : string)
| EvPclose (status : Z)
| EvFopen (path : string) (ok : bool)
| EvFseek (off : Z)
| EvFread (size nmemb ret : Z)
| EvMalloc (size : Z)
| EvFree (what : freed)
| EvTtsOutput (track : AudioTrack) (format : AudioFormat)
| EvFclose
| EvUnlink (path : string).

Inductive trap : Type := AssertFail | DivByZero.

Inductive result (A : Type) : Type :=
| Ret (a : A)
| Trap (t : trap).
Arguments Ret {A} a.
Arguments Trap {A} t.

Definition M (S A : Type) : Type := S -> list event * result (A * S).

Definition ret {S A} (a : A) : M S A := fun s => ([], Ret (a, s)).

Definition bind {S A B} (m : M S A) (k : A -> M S B) : M S B :=
  fun s =>
    match m s with
    | (t1, Ret (a, s1)) => let (t2, r) := k a s1 in (t1 ++ t2, r)
    | (t1, Trap t) => (t1, Trap t)
    end.

Definition emit {S} (e : event) : M S unit := fun s => ([e], Ret (tt, s)).
Definition get {S} : M S S := fun s => ([], Ret (s, s)).
Definition modify {S} (f : S -> S) : M S unit := fun s => ([], Ret (tt, f s)).
Definition raise {S A} (t : trap) : M S A := fun _ => ([], Trap t).

(** [DBG (fmt, ...)]: a diagnostic log entry, identified by its format. *)
Definition DBG {S} (fmt : string) : M S unit := emit (EvDbg fmt).

Declare Scope monad_scope.
Delimit Scope monad_scope with monad.
Notation "x <- m ;; k" := (bind m (fun x => k))
  (at level 61, m at next level, right associativity) : monad_scope.
Notation "m ;; k" := (bind m (fun _ => k))
  (at level 61, right associativity) : monad_scope.
Local Open Scope monad_scope.

(** Number of events of a trace that satisfy [p]. *)
Definition count (p : event -> bool) (tr : list event) : nat :=
  List.length (filter p tr).

(** ** Voice resolver *)

(** Field updates of [globals]. *)
Definition set_voice_search_paths (v : list string) (g : globals) : globals :=
  {| OpenjtalkDictionaryDirectory := OpenjtalkDictionaryDirectory g;
     voice_search_paths := v;
     openjtalk_msg_voice_str := openjtalk_msg_voice_str g;
     openjtalk_msg_language := openjtalk_msg_language g;
     openjtalk_htsvoice_path := openjtalk_htsvoice_path g;
     msg_settings := msg_settings g;
     msg_settings_old := msg_settings_old g |}.

Definition set_msg_voice_str (v : option string) (g : globals) : globals :=
  {| OpenjtalkDictionaryDirectory := OpenjtalkDictionaryDirectory g;
     voice_search_paths := voice_search_paths g;
     openjtalk_msg_voice_str := v;
     openjtalk_msg_language := openjtalk_msg_language g;
     openjtalk_htsvoice_path := openjtalk_htsvoice_path g;
     msg_settings := msg_settings g;
     msg_settings_old := msg_settings_old g |}.

Definition set_msg_language (v : option string) (g : globals) : globals :=
  {| OpenjtalkDictionaryDirectory := OpenjtalkDictionaryDirectory g;
     voice_search_paths := voice_search_paths g;
     openjtalk_msg_voice_str := openjtalk_msg_voice_str g;
     openjtalk_msg_language := v;
     openjtalk_htsvoice_path := openjtalk_htsvoice_path g;
     msg_settings := msg_settings g;
     msg_settings_old := msg_settings_old g |}.

Definition set_htsvoice_path (v : option string) (g : globals) : globals :=
  {| OpenjtalkDictionaryDirectory := OpenjtalkDictionaryDirectory g;
     voice_search_paths := voice_search_paths g;
     openjtalk_msg_voice_str := openjtalk_msg_voice_str g;
     openjtalk_msg_language := openjtalk_msg_language g;
     openjtalk_htsvoice_path := v;
     msg_settings := msg_settings g;
     msg_settings_old := msg_settings_old g |}.

Definition set_settings_old (v : SPDMsgSettings) (g : globals) : globals :=
  {| OpenjtalkDictionaryDirectory := OpenjtalkDictionaryDirectory g;
     voice_search_paths := voice_search_paths g;
     openjtalk_msg_voice_str := openjtalk_msg_voice_str g;
     openjtalk_msg_language := openjtalk_msg_language g;
     openjtalk_htsvoice_path := openjtalk_htsvoice_path g;
     msg_settings := msg_settings g;
     msg_settings_old := v |}.

(** [VoiceFileSearchPath_cb]: one [VoiceFileSearchPath] line of the
    configuration appends its argument to [voice_search_paths]. *)
Definition VoiceFileSearchPath_cb (str : string) (g : globals) : globals :=
  set_voice_search_paths (voice_search_paths g ++ [str]) g.

(** [g_string_replace (s, find, replace, 0)] of GLib for a non-empty [find]:
    every occurrence of [find], scanning from the left, is replaced; the
    scan resumes after the inserted text.  [skip] counts the characters of
    a matched occurrence that are still to be dropped. *)
Fixpoint g_string_replace_from (skip : nat) (find replace s : string) : string :=
  match s with
  | EmptyString => EmptyString
  | String c s' =>
      match skip with
      | S k => g_string_replace_from k find replace s'
      | O =>
          if String.prefix find s
          then String.append replace
                 (g_string_replace_from (String.length find - 1) find replace s')
          else String c (g_string_replace_from 0 find replace s')
      end
  end.

Definition g_string_replace (s find replace : string) : string :=
  g_string_replace_from 0 find replace s.

(** The body of the [for] loop of [update_htsvoice_path], from index
    [n_voice_search_paths - length paths] on. *)
Fixpoint update_htsvoice_path_loop (w : world) (voice : string)
    (paths : list string) : M globals unit :=
  match paths with
  | [] => ret tt
  | template :: rest =>
      let htsvoice_path := g_string_replace template "$VOICE" voice in
      let found := g_file_test w htsvoice_path in
      emit (EvFileTest htsvoice_path found);;
      if found
      then modify (set_htsvoice_path (Some htsvoice_path))
      else update_htsvoice_path_loop w voice rest
  end.

Definition update_htsvoice_path (w : world) : M globals unit :=
  emit EvUpdateHtsvoicePath;;
  modify (set_htsvoice_path None);;
  g <- get;;
  match openjtalk_msg_voice_str g with
  | None => DBG "update_htsvoice_path: openjtalk_msg_voice_str is NULL"
  | Some voice => update_htsvoice_path_loop w voice (voice_search_paths g)
  end.

(** [assert] is active (the file does not define [NDEBUG]): a failed
    assertion ends the run. *)
Definition openjtalk_set_voice (w : world) (voice : SPDVoiceType) : M globals unit :=
  DBG "Setting voice type %d";;
  g <- get;;
  match openjtalk_msg_language g with
  | None => raise AssertFail
  | Some lang =>
      let r := module_getvoice w lang voice in
      emit (EvGetvoice lang voice r);;
      modify (set_msg_voice_str r);;
      match r with
      | None => DBG "Invalid voice type specified or no voice available!"
      | Some _ => ret tt
      end;;
      update_htsvoice_path w
  end.

Definition openjtalk_set_language (w : world) (lang : string) : M globals unit :=
  DBG "Setting language %s";;
  modify (set_msg_language (Some lang));;
  g <- get;;
  openjtalk_set_voice w (voice_type (msg_settings g)).

Definition openjtalk_set_synthesis_voice (w : world) (name : string) : M globals unit :=
  DBG "Setting voice name %s (%s)";;
  g <- get;;
  match voice_name (msg_settings g) with
  | None => raise AssertFail
  | Some n =>
      let r := module_existsvoice w n in
      emit (EvExistsvoice n r);;
      if r
      then modify (set_msg_voice_str (Some n));; update_htsvoice_path w
      else ret tt
  end.

(** ** Parameter update *)

Definition set_old_language (v : option string) (o : SPDMsgSettings) : SPDMsgSettings :=
  {| voice_language := v; voice_type := voice_type o; voice_name := voice_name o |}.

Definition set_old_voice_type (v : SPDVoiceType) (o : SPDMsgSettings) : SPDMsgSettings :=
  {| voice_language := voice_language o; voice_type := v; voice_name := voice_name o |}.

Definition set_old_name (v : option string) (o : SPDMsgSettings) : SPDMsgSettings :=
  {| voice_language := voice_language o; voice_type := voice_type o; voice_name := v |}.

Definition opt_string_eqb (a b : option string) : bool :=
  match a, b with
  | None, None => true
  | Some x, Some y => String.eqb x y
  | _, _ => false
  end.

(** Modelled from the spec: the macro [UPDATE_PARAMETER] of the framework
    is not among the sources.  The parameter-update step compares the
    setting of the request with the remembered one and, when it changed,
    remembers it and calls the setter. *)
Definition UPDATE_PARAMETER
    (value : SPDMsgSettings -> SPDVoiceType)
    (store : SPDVoiceType -> SPDMsgSettings -> SPDMsgSettings)
    (setter : SPDVoiceType -> M globals unit) : M globals unit :=
  g <- get;;
  if negb (value (msg_settings_old g) =? value (msg_settings g))
  then
    modify (set_settings_old (store (value (msg_settings g)) (msg_settings_old g)));;
    setter (value (msg_settings g))
  else ret tt.

(** Modelled from the spec: the macro [UPDATE_STRING_PARAMETER] of the
    framework is not among the sources.  As [UPDATE_PARAMETER], for a
    string that may be unset: a changed setting is remembered, and the
    setter is called when the new setting is set. *)
Definition UPDATE_STRING_PARAMETER
    (value : SPDMsgSettings -> option string)
    (store : option string -> SPDMsgSettings -> SPDMsgSettings)
    (setter : string -> M globals unit) : M globals unit :=
  g <- get;;
  if negb (opt_string_eqb (value (msg_settings_old g)) (value (msg_settings g)))
  then
    modify (set_settings_old (store (value (msg_settings g)) (msg_settings_old g)));;
    match value (msg_settings g) with
    | Some v => setter v
    | None => ret tt
    end
  else ret tt.

(** The three updates at the head of [module_speak_sync]. *)
Definition update_parameters (w : world) : M globals unit :=
  UPDATE_STRING_PARAMETER voice_language set_old_language (openjtalk_set_language w);;
  UPDATE_PARAMETER voice_type set_old_voice_type (openjtalk_set_voice w);;
  UPDATE_STRING_PARAMETER voice_name set_old_name (openjtalk_set_synthesis_voice w).

(** ** Fixed-offset wav reader *)

Definition WAV_START_BITS_PER_SAMPLE : Z := 34.
Definition WAV_START_NUM_CHANNELS : Z := 22.
Definition WAV_START_SAMPLE_RATE : Z := 24.
Definition WAV_START_SIZE_OF_SAMPLES : Z := 40.
Definition WAV_START_SAMPLES : Z := 44.

(** The value of an unsigned integer stored in little-endian order. *)
Definition le_decode (l : list byte) : Z :=
  fold_right (fun b acc => Z.of_N (Byte.to_N b) + 256 * acc) 0 l.

(** Reduction of an [unsigned int] expression. *)
Definition uint32 (z : Z) : Z := z mod 2 ^ 32.

(** [fseek (fp, off, SEEK_SET)]. *)
Definition fseek (off : Z) : M FILE unit :=
  emit (EvFseek off);;
  modify (fun fp => {| f_data := f_data fp; f_pos := off |}).

(** [fread (ptr, size, nmemb, fp)]: the bytes stored at [ptr] and the
    number of complete items among them. *)
Definition fread (size nmemb : Z) : M FILE (list byte * Z) :=
  fun fp =>
    let avail := skipn (Z.to_nat (f_pos fp)) (f_data fp) in
    let got := firstn (Z.to_nat (size * nmemb)) avail in
    let n := Z.of_nat (List.length got) / size in
    ([EvFread size nmemb n],
     Ret ((got, n),
          {| f_data := f_data fp; f_pos := f_pos fp + Z.of_nat (List.length got) |})).

(** Unsigned division as the machine does it: dividing by zero traps. *)
Definition udiv {S} (a b : Z) : M S Z :=
  if b =? 0 then raise DivByZero else ret (a / b).

(** Lines 255 to 303 of [module_speak_sync]: from the first [fseek] to
    the log entry after the read of the samples.  The result is the filled
    [track], or the read that came back short (the jump to [FP_FINISH]).
    The host is little-endian and [malloc] succeeds. *)
Definition extract : M FILE (wav_step + AudioTrack) :=
  fseek WAV_START_BITS_PER_SAMPLE;;
  r <- fread 2 1;;
  if negb (snd r =? 1)
  then DBG "failed to read track.bits";; ret (inl StepBits)
  else
  let bits := le_decode (fst r) in
  DBG "read track.bits";;
  fseek WAV_START_NUM_CHANNELS;;
  r <- fread 2 1;;
  if negb (snd r =? 1)
  then DBG "failed to read track.num_channels";; ret (inl StepChannels)
  else
  let num_channels := le_decode (fst r) in
  DBG "read track.num_channels";;
  fseek WAV_START_SAMPLE_RATE;;
  r <- fread 4 1;;
  if negb (snd r =? 1)
  then DBG "failed to read track.sample_rate";; ret (inl StepSampleRate)
  else
  let sample_rate := le_decode (fst r) in
  DBG "read track.sample_rate";;
  fseek WAV_START_SIZE_OF_SAMPLES;;
  r <- fread 4 1;;
  if negb (snd r =? 1)
  then DBG "failed to read track.num_samples";; ret (inl StepSizeOfSamples)
  else
  let size_of_samples := le_decode (fst r) in
  q <- udiv size_of_samples num_channels;;
  num_samples <- udiv q (bits / 8);;
  DBG "read track.num_samples";;
  DBG "bits: %d num_channels: %d sample_rate: %d num_samples: %d";;
  fseek WAV_START_SAMPLES;;
  let size := uint32 (uint32 (num_samples * num_channels) * bits) / 8 in
  emit (EvMalloc size);;
  r <- fread (bits / 8) (uint32 (num_samples * num_channels));;
  if negb (snd r =? uint32 (num_samples * num_channels))
  then
    DBG "failed to read track.samples";;
    emit (EvFree FreedSamples);;
    ret (inl StepSamples)
  else
    DBG "read track.samples";;
    ret (inr {| bits := bits;
                num_channels := num_channels;
                sample_rate := sample_rate;
                num_samples := num_samples;
                samples := Some {| buf_size := size; buf_data := fst r |} |}).

(** Runs the reader on the stream [fp], a local of the speak request. *)
Definition on_file {A} (fp : FILE) (m : M FILE A) : M globals A :=
  fun g =>
    match m fp with
    | (tr, Ret (a, _)) => (tr, Ret (a, g))
    | (tr, Trap t) => (tr, Trap t)
    end.

(** ** Speak request *)

(** The three exit labels of [module_speak_sync]. *)
Definition FINISH : M globals unit :=
  emit (EvFree FreedPlainData);;
  emit EvReportEventEnd;;
  DBG "done".

Definition TEMPLATE_FINISH (template : string) : M globals unit :=
  emit (EvUnlink template);;
  FINISH.

Definition FP_FINISH (template : string) : M globals unit :=
  emit EvFclose;;
  TEMPLATE_FINISH template.

(** Lines 185 to 322 of [module_speak_sync]: what follows the parameter
    update. *)
Definition module_speak_sync_body (w : world) (data : string) : M globals unit :=
  g <- get;;
  match openjtalk_htsvoice_path g with
  | None =>
      DBG "No voice specified";;
      emit EvSpeakError
  | Some htsvoice_path =>
      emit EvSpeakOk;;
      emit EvReportEventBegin;;
      let plain_data := module_strip_ssml w data in
      emit (EvUmask 63);;
      let tmp := mkstemp w "/tmp/speechd-openjtalk-XXXXXX" in
      emit (EvMkstemp tmp);;
      match tmp with
      | None =>
          DBG "temporary .wav file creation failed";;
          FINISH
      | Some template =>
          emit EvClose;;
          let cmd :=
            String.append "open_jtalk -x "
              (String.append (OpenjtalkDictionaryDirectory g)
                 (String.append " -m "
                    (String.append htsvoice_path
                       (String.append " -ow " template)))) in
          if negb (asprintf_ok w)
          then
            emit (EvAsprintf None);;
            DBG "failed to construct command line";;
            TEMPLATE_FINISH template
          else
          emit (EvAsprintf (Some cmd));;
          DBG "executing: %s";;
          emit (EvPopen cmd (popen_ok w cmd));;
          emit (EvFree FreedCmd);;
          if negb (popen_ok w cmd)
          then
            DBG "failed to execute open_jtalk";;
            TEMPLATE_FINISH template
          else
          emit (EvFprintf plain_data);;
          let status := pclose_status w cmd plain_data in
          emit (EvPclose status);;
          if negb (status =? 0)
          then
            DBG "open_jtalk exited with non-zero code";;
            TEMPLATE_FINISH template
          else
          DBG "output to %s";;
          emit (EvFopen template
                  (match fopen w template with Some _ => true | None => false end));;
          match fopen w template with
          | None =>
              DBG "failed to open wav file";;
              TEMPLATE_FINISH template
          | Some content =>
              DBG "opened wav file";;
              r <- on_file {| f_data := content; f_pos := 0 |} extract;;
              match r with
              | inl _ => FP_FINISH template
              | inr track =>
                  emit (EvTtsOutput track SPD_AUDIO_LE);;
                  DBG "output finished";;
                  emit (EvFree FreedSamples);;
                  FP_FINISH template
              end
          end
      end
  end.

Definition module_speak_sync (w : world) (data : string) : M globals unit :=
  DBG "speaking '%s'";;
  update_parameters w;;
  module_speak_sync_body w data.

(** ** Sample inputs *)

Definition byte_of_Z (z : Z) : byte :=
  match Byte.of_N (Z.to_N (z mod 256)) with
  | Some b => b
  | None => x00
  end.

(** [n] bytes holding [v] in little-endian order. *)
Fixpoint le_encode (n : nat) (v : Z) : list byte :=
  match n with
  | O => []
  | S k => byte_of_Z v :: le_encode k (v / 256)
  end.

(** A file with the four header fields at their offsets, zeros elsewhere
    in the header, followed by [data]. *)
Definition wav_file (bits channels rate size : Z) (data : list byte) : list byte :=
  repeat x00 22 ++ le_encode 2 channels ++ le_encode 4 rate ++ repeat x00 6
    ++ le_encode 2 bits ++ repeat x00 4 ++ le_encode 4 size ++ data.

Definition open_file (content : list byte) : FILE :=
  {| f_data := content; f_pos := 0 |}.

(** Stereo, 16 bits, 400 bytes of samples. *)
Definition wav_stereo16 : list byte :=
  wav_file 16 2 48000 400 (repeat x2a 400).

(** The same header with only 10 of the 400 bytes present. *)
Definition wav_truncated : list byte :=
  wav_file 16 2 48000 400 (repeat x2a 10).

(** A 12-bit mono file with two bytes of samples. *)
Definition wav_mono12 : list byte :=
  wav_file 12 1 48000 2 (repeat x2a 2).

(** Headers with a zero channel count and with fewer than 8 bits. *)
Definition wav_no_channels : list byte :=
  wav_file 16 0 48000 400 (repeat x2a 400).

Definition wav_4bit : list byte :=
  wav_file 4 1 48000 400 (repeat x2a 400).

Definition settings_ja : SPDMsgSettings :=
  {| voice_language := Some "ja"; voice_type := 4; voice_name := None |}.

Definition settings_unset : SPDMsgSettings :=
  {| voice_language := None; voice_type := -1; voice_name := None |}.

(** The module after loading a configuration with one search path. *)
Definition g_init : globals :=
  VoiceFileSearchPath_cb "/voices/$VOICE.htsvoice"
    {| OpenjtalkDictionaryDirectory := "/var/lib/mecab/dic/open-jtalk";
       voice_search_paths := [];
       openjtalk_msg_voice_str := None;
       openjtalk_msg_language := None;
       openjtalk_htsvoice_path := None;
       msg_settings := settings_ja;
       msg_settings_old := settings_unset |}.

(** A world with the voices [female1] (female, Japanese) and [male1],
    whose model files both exist, and an engine that behaves. *)
Definition w_ok : world :=
  {| module_getvoice := fun lang voice =>
       if String.eqb lang "ja"
       then if voice =? 4 then Some "female1"
            else if voice =? 1 then Some "male1" else None
       else None;
     module_existsvoice := fun name =>
       String.eqb name "female1" || String.eqb name "male1";
     g_file_test := fun path =>
       String.eqb path "/voices/female1.htsvoice"
       || String.eqb path "/voices/male1.htsvoice";
     module_strip_ssml := fun data => data;
     mkstemp := fun _ => Some "/tmp/speechd-openjtalk-a1b2c3";
     asprintf_ok := true;
     popen_ok := fun _ => true;
     pclose_status := fun _ _ => 0;
     fopen := fun _ => Some wav_stereo16 |}.


Definition with_pclose_status (status : Z) (w : world) : world :=
  {| module_getvoice := module_getvoice w;
     module_existsvoice := module_existsvoice w;
     g_file_test := g_file_test w;
     module_strip_ssml := module_strip_ssml w;
     mkstemp := mkstemp w;
     asprintf_ok := asprintf_ok w;
     popen_ok := popen_ok w;
     pclose_status := fun _ _ => status;
     fopen := fopen w |}.

Definition with_fopen (r : option (list byte)) (w : world) : world :=
  {| module_getvoice := module_getvoice w;
     module_existsvoice := module_existsvoice w;
     g_file_test := g_file_test w;
     module_strip_ssml := module_strip_ssml w;
     mkstemp := mkstemp w;
     asprintf_ok := asprintf_ok w;
     popen_ok := popen_ok w;
     pclose_status := pclose_status w;
     fopen := fun _ => r |}.

(** ** Predicates on traces *)

Definition is_unlink (e : event) : bool :=
  match e with EvUnlink _ => true | _ => false end.

Definition is_tts_output (e : event) : bool :=
  match e with EvTtsOutput _ _ => true | _ => false end.

Definition is_speak_error (e : event) : bool :=
  match e with EvSpeakError => true | _ => false end.

Definition is_speak_ok (e : event) : bool :=
  match e with EvSpeakOk => true | _ => false end.

Definition is_report_end (e : event) : bool :=
  match e with EvReportEventEnd => true | _ => false end.

Definition is_report_begin (e : event) : bool :=
  match e with EvReportEventBegin => true | _ => false end.

Definition is_getvoice (e : event) : bool :=
  match e with EvGetvoice _ _ _ => true | _ => false end.

Definition is_update_path (e : event) : bool :=
  match e with EvUpdateHtsvoicePath => true | _ => false end.

Definition is_malloc (e : event) : bool :=
  match e with EvMalloc _ => true | _ => false end.

Definition is_free_samples (e : event) : bool :=
  match e with EvFree FreedSamples => true | _ => false end.

(** Events of the voice resolver and of the parameter update. *)
Definition selection_event (e : event) : bool :=
  match e with
  | EvDbg _ | EvUpdateHtsvoicePath | EvFileTest _ _
  | EvGetvoice _ _ _ | EvExistsvoice _ _ => true
  | _ => false
  end.

(** Events of the wav reader. *)
Definition reader_event (e : event) : bool :=
  match e with
  | EvDbg _ | EvFseek _ | EvFread _ _ _ | EvMalloc _ | EvFree FreedSamples => true
  | _ => false
  end.

(** Every trace of [m] consists of events that satisfy [P]. *)
Definition emits {S A} (P : event -> bool) (m : M S A) : Prop :=
  forall s, forallb P (fst (m s)) = true.

(** The substituted path of a template. *)
Definition substituted (voice template : string) : string :=
  g_string_replace template "$VOICE" voice.

(** [p] is the substituted path of the first template of [paths], in
    order, whose substituted path exists. *)
Definition first_existing (w : world) (voice : string) (paths : list string)
    (p : string) : Prop :=
  exists i template,
    nth_error paths i = Some template /\
    p = substituted voice template /\
    g_file_test w p = true /\
    forall j t, (j < i)%nat -> nth_error paths j = Some t ->
                g_file_test w (substituted voice t) = false.

(** No template of [paths] has a substituted path that exists. *)
Definition none_existing (w : world) (voice : string) (paths : list string) : Prop :=
  forall t, In t paths -> g_file_test w (substituted voice t) = false.

(** The [n] bytes of a file from offset [off] on (fewer at the end of the
    file). *)
Definition bytes_at (f : list byte) (off n : Z) : list byte :=
  firstn (Z.to_nat n) (skipn (Z.to_nat off) f).

Definition file_size (f : list byte) : Z := Z.of_nat (List.length f).

(** The four header fields as stored in the file. *)
Definition header_bits (f : list byte) : Z := le_decode (bytes_at f 34 2).
Definition header_channels (f : list byte) : Z := le_decode (bytes_at f 22 2).
Definition header_sample_rate (f : list byte) : Z := le_decode (bytes_at f 24 4).
Definition header_size (f : list byte) : Z := le_decode (bytes_at f 40 4).

(** The sample count the reader computes from the header. *)
Definition header_samples (f : list byte) : Z :=
  header_size f / header_channels f / (header_bits f / 8).

(** The number of bytes of the sample block, as the reader asks for it. *)
Definition block_size (f : list byte) : Z :=
  header_samples f * header_channels f * (header_bits f / 8).

(** A well-formed fixed-offset file: a complete header with at least one
    channel and at least one byte per sample, followed by the announced
    number of bytes. *)
Definition well_formed (f : list byte) : Prop :=
  1 <= header_channels f /\ 8 <= header_bits f /\
  44 + header_size f <= file_size f.

(** The events of a run of the reader up to the computation of the sample
    count. *)
Definition header_trace : list event :=
  [EvFseek 34; EvFread 2 1 1; EvDbg "read track.bits";
   EvFseek 22; EvFread 2 1 1; EvDbg "read track.num_channels";
   EvFseek 24; EvFread 4 1 1; EvDbg "read track.sample_rate";
   EvFseek 40; EvFread 4 1 1].

(** The events from there to the read of the sample block, which returns
    [ret] items. *)
Definition block_trace (f : list byte) (ret : Z) : list event :=
  [EvDbg "read track.num_samples";
   EvDbg "bits: %d num_channels: %d sample_rate: %d num_samples: %d";
   EvFseek 44;
   EvMalloc (uint32 (uint32 (header_samples f * header_channels f) * header_bits f) / 8);
   EvFread (header_bits f / 8) (header_samples f * header_channels f) ret].

(** The track a complete run hands over. *)
Definition track_of (f : list byte) : AudioTrack :=
  {| bits := header_bits f;
     num_channels := header_channels f;
     sample_rate := header_sample_rate f;
     num_samples := header_samples f;
     samples :=
       Some {| buf_size :=
                 uint32 (uint32 (header_samples f * header_channels f) * header_bits f) / 8;
               buf_data := bytes_at f 44 (block_size f) |} |}.

(** Some [fread] of the trace returned fewer items than it was asked for. *)
Definition short_read (tr : list event) : Prop :=
  exists size nmemb ret, In (EvFread size nmemb ret) tr /\ ret <> nmemb.



(** The events of the three exit labels. *)
Definition finish_trace : list event :=
  [EvFree FreedPlainData; EvReportEventEnd; EvDbg "done"].

Definition template_finish_trace (template : string) : list event :=
  EvUnlink template :: finish_trace.

Definition fp_finish_trace (template : string) : list event :=
  EvFclose :: template_finish_trace template.

(** The events from [module_speak_ok] to the return of [mkstemp]. *)
Definition started_trace (tmp : option string) : list event :=
  [EvSpeakOk; EvReportEventBegin; EvUmask 63; EvMkstemp tmp].

(** The events from the launch of the engine to its exit. *)
Definition engine_trace (cmd text : string) (status : Z) : list event :=
  [EvAsprintf (Some cmd); EvDbg "executing: %s"; EvPopen cmd true;
   EvFree FreedCmd; EvFprintf text; EvPclose status].

(** The ways a speak request can go once the parameters are updated. *)
Inductive speak_path : Type :=
| NoVoice
| TempFileError
| CommandLineError (template : string)
| ProcessSpawnError (template cmd : string)
| ProcessExitError (template cmd text : string) (status : Z)
| OpenError (template cmd text : string)
| WavReadError (template cmd text : string) (reader : list event) (step : wav_step)
| ReaderTrap (template cmd text : string) (reader : list event) (t : trap)
| Spoken (template cmd text : string) (reader : list event) (track : AudioTrack).

(** The events of each way. *)
Definition path_trace (p : speak_path) : list event :=
  match p with
  | NoVoice => [EvDbg "No voice specified"; EvSpeakError]
  | TempFileError =>
      started_trace None
        ++ EvDbg "temporary .wav file creation failed" :: finish_trace
  | CommandLineError template =>
      started_trace (Some template)
        ++ [EvClose; EvAsprintf None; EvDbg "failed to construct command line"]
        ++ template_finish_trace template
  | ProcessSpawnError template cmd =>
      started_trace (Some template)
        ++ [EvClose; EvAsprintf (Some cmd); EvDbg "executing: %s";
            EvPopen cmd false; EvFree FreedCmd;
            EvDbg "failed to execute open_jtalk"]
        ++ template_finish_trace template
  | ProcessExitError template cmd text status =>
      started_trace (Some template)
        ++ EvClose :: engine_trace cmd text status
        ++ EvDbg "open_jtalk exited with non-zero code"
        :: template_finish_trace template
  | OpenError template cmd text =>
      started_trace (Some template)
        ++ EvClose :: engine_trace cmd text 0
        ++ [EvDbg "output to %s"; EvFopen template false;
            EvDbg "failed to open wav file"]
        ++ template_finish_trace template
  | WavReadError template cmd text reader _ =>
      started_trace (Some template)
        ++ EvClose :: engine_trace cmd text 0
        ++ [EvDbg "output to %s"; EvFopen template true; EvDbg "opened wav file"]
        ++ reader
        ++ fp_finish_trace template
  | ReaderTrap template cmd text reader _ =>
      started_trace (Some template)
        ++ EvClose :: engine_trace cmd text 0
        ++ [EvDbg "output to %s"; EvFopen template true; EvDbg "opened wav file"]
        ++ reader
  | Spoken template cmd text reader track =>
      started_trace (Some template)
        ++ EvClose :: engine_trace cmd text 0
        ++ [EvDbg "output to %s"; EvFopen template true; EvDbg "opened wav file"]
        ++ reader
        ++ [EvTtsOutput track SPD_AUDIO_LE; EvDbg "output finished";
            EvFree FreedSamples]
        ++ fp_finish_trace template
  end.

(** When the run of the request goes the way [p]: what was resolved and
    what the outside answered. *)
Definition path_taken (w : world) (g : globals) (p : speak_path) : Prop :=
  match p with
  | NoVoice => openjtalk_htsvoice_path g = None
  | TempFileError =>
      openjtalk_htsvoice_path g <> None /\
      mkstemp w "/tmp/speechd-openjtalk-XXXXXX" = None
  | CommandLineError template =>
      openjtalk_htsvoice_path g <> None /\
      mkstemp w "/tmp/speechd-openjtalk-XXXXXX" = Some template /\
      asprintf_ok w = false
  | ProcessSpawnError template cmd =>
      openjtalk_htsvoice_path g <> None /\
      mkstemp w "/tmp/speechd-openjtalk-XXXXXX" = Some template /\
      asprintf_ok w = true /\ popen_ok w cmd = false
  | ProcessExitError template cmd text status =>
      openjtalk_htsvoice_path g <> None /\
      mkstemp w "/tmp/speechd-openjtalk-XXXXXX" = Some template /\
      asprintf_ok w = true /\ popen_ok w cmd = true /\
      pclose_status w cmd text = status /\ status <> 0
  | OpenError template cmd text =>
      openjtalk_htsvoice_path g <> None /\
      mkstemp w "/tmp/speechd-openjtalk-XXXXXX" = Some template /\
      asprintf_ok w = true /\ popen_ok w cmd = true /\
      pclose_status w cmd text = 0 /\ fopen w template = None
  | WavReadError template cmd text reader step =>
      openjtalk_htsvoice_path g <> None /\
      mkstemp w "/tmp/speechd-openjtalk-XXXXXX" = Some template /\
      asprintf_ok w = true /\ popen_ok w cmd = true /\
      pclose_status w cmd text = 0 /\
      exists content fp',
        fopen w template = Some content /\
        extract (open_file content) = (reader, Ret (inl step, fp'))
  | ReaderTrap template cmd text reader t =>
      openjtalk_htsvoice_path g <> None /\
      mkstemp w "/tmp/speechd-openjtalk-XXXXXX" = Some template /\
      asprintf_ok w = true /\ popen_ok w cmd = true /\
      pclose_status w cmd text = 0 /\
      exists content,
        fopen w template = Some content /\
        extract (open_file content) = (reader, Trap t)
  | Spoken template cmd text reader track =>
      openjtalk_htsvoice_path g <> None /\
      mkstemp w "/tmp/speechd-openjtalk-XXXXXX" = Some template /\
      asprintf_ok w = true /\ popen_ok w cmd = true /\
      pclose_status w cmd text = 0 /\
      exists content fp',
        fopen w template = Some content /\
        extract (open_file content) = (reader, Ret (inr track, fp'))
  end.

(** The result of each way: all return, but for a trap in the reader. *)
Definition path_result (g : globals) (p : speak_path) : result (unit * globals) :=
  match p with
  | ReaderTrap _ _ _ _ t => Trap t
  | _ => Ret (tt, g)
  end.






(** The framework stores the settings of the next request. *)
Definition set_msg_settings (v : SPDMsgSettings) (g : globals) : globals :=
  {| OpenjtalkDictionaryDirectory := OpenjtalkDictionaryDirectory g;
     voice_search_paths := voice_search_paths g;
     openjtalk_msg_voice_str := openjtalk_msg_voice_str g;
     openjtalk_msg_language := openjtalk_msg_language g;
     openjtalk_htsvoice_path := openjtalk_htsvoice_path g;
     msg_settings := v;
     msg_settings_old := msg_settings_old g |}.

(** Japanese, female, with the registered voice [male1] named explicitly;
    then the same with a name that is not registered. *)
Definition settings_named : SPDMsgSettings :=
  {| voice_language := Some "ja"; voice_type := 4; voice_name := Some "male1" |}.

Definition settings_renamed : SPDMsgSettings :=
  {| voice_language := Some "ja"; voice_type := 4; voice_name := Some "nobody" |}.

(** The path the template search yields for a voice identifier. *)
Definition resolved_path (w : world) (paths : list string)
    (voice : option string) : option string :=
  match voice with
  | None => None
  | Some v =>
      option_map (substituted v)
        (find (fun t => g_file_test w (substituted v t)) paths)
  end.

(** The resolved path is the one of the current voice identifier. *)
Definition path_is_current (w : world) (g : globals) : Prop :=
  openjtalk_htsvoice_path g =
    resolved_path w (voice_search_paths g) (openjtalk_msg_voice_str g).

(** The changes of the selection that the parameter update sees. *)
Definition language_changed (g : globals) : Prop :=
  voice_language (msg_settings g) <> voice_language (msg_settings_old g).

Definition voice_type_changed (g : globals) : Prop :=
  voice_type (msg_settings g) <> voice_type (msg_settings_old g).

Definition name_changed (g : globals) : Prop :=
  voice_name (msg_settings g) <> voice_name (msg_settings_old g).

(** The explicit voice name is set and registered. *)
Definition name_registered (w : world) (g : globals) : Prop :=
  exists n, voice_name (msg_settings g) = Some n /\ module_existsvoice w n = true.

(** The language is set. *)
Definition language_set (g : globals) : Prop :=
  voice_language (msg_settings g) <> None.

(** Configuration and settings tables are the same in both states. *)
Definition same_configuration (g g' : globals) : Prop :=
  voice_search_paths g' = voice_search_paths g /\
  OpenjtalkDictionaryDirectory g' = OpenjtalkDictionaryDirectory g /\
  msg_settings g' = msg_settings g /\
  msg_settings_old g' = msg_settings_old g.

(** Voice identifier, language and resolved path are the same in both
    states. *)
Definition same_voice (g g' : globals) : Prop :=
  openjtalk_msg_voice_str g' = openjtalk_msg_voice_str g /\
  openjtalk_msg_language g' = openjtalk_msg_language g /\
  openjtalk_htsvoice_path g' = openjtalk_htsvoice_path g.

(** The changes of the selection on which the parameter update resolves
    the voice path again. *)
Definition resolution_triggered (w : world) (g : globals) : Prop :=
  (language_changed g /\ language_set g) \/
  voice_type_changed g \/
  (name_changed g /\ name_registered w g).

(** The module after a request with [settings_named]: the explicit name
    was used. *)
Definition g_named : globals :=
  {| OpenjtalkDictionaryDirectory := "/var/lib/mecab/dic/open-jtalk";
     voice_search_paths := ["/voices/$VOICE.htsvoice"];
     openjtalk_msg_voice_str := Some "male1";
     openjtalk_msg_language := Some "ja";
     openjtalk_htsvoice_path := Some "/voices/male1.htsvoice";
     msg_settings := settings_named;
     msg_settings_old := settings_named |}.

(** ** Further predicates on traces *)

Definition is_fread (e : event) : bool :=
  match e with EvFread _ _ _ => true | _ => false end.

Definition is_file_test (e : event) : bool :=
  match e with EvFileTest _ _ => true | _ => false end.

Definition is_mkstemp_ok (e : event) : bool :=
  match e with EvMkstemp (Some _) => true | _ => false end.

Definition is_close (e : event) : bool :=
  match e with EvClose => true | _ => false end.

Definition is_asprintf_ok (e : event) : bool :=
  match e with EvAsprintf (Some _) => true | _ => false end.

Definition is_free_cmd (e : event) : bool :=
  match e with EvFree FreedCmd => true | _ => false end.

Definition is_free_plain_data (e : event) : bool :=
  match e with EvFree FreedPlainData => true | _ => false end.

Definition is_popen_ok (e : event) : bool :=
  match e with EvPopen _ true => true | _ => false end.

Definition is_pclose (e : event) : bool :=
  match e with EvPclose _ => true | _ => false end.

Definition is_fopen_ok (e : event) : bool :=
  match e with EvFopen _ true => true | _ => false end.

Definition is_fclose (e : event) : bool :=
  match e with EvFclose => true | _ => false end.

(** The command line that [asprintf] builds. *)
Definition command_line (dictionary htsvoice_path template : string) : string :=
  String.append "open_jtalk -x "
    (String.append dictionary
       (String.append " -m "
          (String.append htsvoice_path (String.append " -ow " template)))).

(** The character [$], with which the placeholder starts. *)
Definition dollar : ascii := "$"%char.

(** [s] holds no [$]. *)
Fixpoint no_dollar (s : string) : bool :=
  match s with
  | EmptyString => true
  | String c s' => negb (Ascii.eqb c dollar) && no_dollar s'
  end.




(** English, female, with the registered voice [male1] still named. *)
Definition settings_en : SPDMsgSettings :=
  {| voice_language := Some "en"; voice_type := 4; voice_name := Some "male1" |}.

(** The parameter update reaches the assertion of [openjtalk_set_voice]:
    the module holds no language, none arrives, and the voice type
    changed. *)
Definition assertion_reached (g : globals) : Prop :=
  openjtalk_msg_language g = None /\ voice_type_changed g /\
  ~ (language_changed g /\ language_set g).

(** * Properties *)

(** ** The monad *)

Lemma count_app p (l1 l2 : list event) :
  count p (l1 ++ l2) = (count p l1 + count p l2)%nat.
Proof.
  unfold count. rewrite filter_app, length_app. reflexivity.
Qed.

Lemma count_zero p q (l : list event) :
  forallb q l = true ->
  (forall e, q e = true -> p e = false) ->
  count p l = 0%nat.
Proof.
  intros Hq Hpq. unfold count. induction l as [|e l IH]; simpl in *.
  - reflexivity.
  - apply andb_true_iff in Hq. destruct Hq as [He Hl].
    rewrite (Hpq e He). auto.
Qed.

Lemma emits_ret {S A} P (a : A) : emits P (@ret S A a).
Proof. intros s. reflexivity. Qed.

Lemma emits_get {S} P : emits P (@get S).
Proof. intros s. reflexivity. Qed.

Lemma emits_modify {S} P (f : S -> S) : emits P (modify f).
Proof. intros s. reflexivity. Qed.

Lemma emits_raise {S A} P t : emits P (@raise S A t).
Proof. intros s. reflexivity. Qed.

Lemma emits_emit {S} (P : event -> bool) e : P e = true -> emits P (@emit S e).
Proof. intros H s. simpl. rewrite H. reflexivity. Qed.

Lemma emits_bind {S A B} P (m : M S A) (k : A -> M S B) :
  emits P m -> (forall a, emits P (k a)) -> emits P (bind m k).
Proof.
  intros Hm Hk s. unfold bind. specialize (Hm s).
  destruct (m s) as [t1 [[a s1]|t]]; simpl in *; auto.
  specialize (Hk a s1). destruct (k a s1) as [t2 r]. simpl in *.
  rewrite forallb_app, Hm, Hk. reflexivity.
Qed.

Ltac emits_step :=
  match goal with
  | |- emits _ (bind _ _) => apply emits_bind; [| intros ? ]
  | |- emits _ (emit _) => apply emits_emit; reflexivity
  | |- emits _ (DBG _) => apply emits_emit; reflexivity
  | |- emits _ (ret _) => apply emits_ret
  | |- emits _ get => apply emits_get
  | |- emits _ (modify _) => apply emits_modify
  | |- emits _ (raise _) => apply emits_raise
  | |- emits _ (match ?x with _ => _ end) => destruct x
  end.

(** ** Voice resolver *)

Lemma update_htsvoice_path_loop_run w voice paths g :
  exists tr,
    update_htsvoice_path_loop w voice paths g =
      (tr, Ret (tt,
                match find (fun t => g_file_test w (substituted voice t)) paths with
                | Some t => set_htsvoice_path (Some (substituted voice t)) g
                | None => g
                end)).
Proof.
  induction paths as [|t rest IH]; simpl.
  - eexists. reflexivity.
  - unfold bind, emit, modify. simpl. fold (substituted voice t).
    destruct (g_file_test w (substituted voice t)) eqn:E; simpl.
    + eexists. reflexivity.
    + destruct IH as [tr IH]. rewrite IH. eexists. reflexivity.
Qed.

Lemma find_first_existing w voice paths t :
  find (fun t => g_file_test w (substituted voice t)) paths = Some t ->
  first_existing w voice paths (substituted voice t).
Proof.
  induction paths as [|a rest IH]; simpl; [discriminate|].
  destruct (g_file_test w (substituted voice a)) eqn:E.
  - intros H. injection H as ->. exists 0%nat, t. repeat split; auto.
    intros j t' Hj. lia.
  - intros H. destruct (IH H) as (i & t' & Hn & Hp & Hex & Hfirst).
    exists (S i), t'. repeat split; auto.
    intros [|j] u Hj Hu; simpl in Hu.
    + injection Hu as <-. exact E.
    + apply (Hfirst j u); [lia | assumption].
Qed.

Lemma find_none_existing w voice paths :
  find (fun t => g_file_test w (substituted voice t)) paths = None ->
  none_existing w voice paths.
Proof.
  intros H t Hin. exact (find_none _ _ H t Hin).
Qed.

Lemma first_existing_unique w voice paths p q :
  first_existing w voice paths p -> first_existing w voice paths q -> p = q.
Proof.
  intros (i & t & Hi & -> & Hp & Hfi) (j & u & Hj & -> & Hq & Hfj).
  destruct (lt_eq_lt_dec i j) as [[Hlt|Heq]|Hgt].
  - rewrite (Hfj i t Hlt Hi) in Hp. discriminate.
  - subst j. congruence.
  - rewrite (Hfi j u Hgt Hj) in Hq. discriminate.
Qed.

Lemma first_existing_not_none w voice paths p :
  first_existing w voice paths p -> none_existing w voice paths -> False.
Proof.
  intros (i & t & Hi & -> & Hp & _) Hnone.
  rewrite (Hnone t (nth_error_In _ _ Hi)) in Hp. discriminate.
Qed.

(** What a run of [update_htsvoice_path] leaves in [openjtalk_htsvoice_path],
    in terms of the voice identifier it ran with. *)
Lemma update_htsvoice_path_run w g :
  exists tr g',
    update_htsvoice_path w g = (EvUpdateHtsvoicePath :: tr, Ret (tt, g')) /\
    openjtalk_msg_voice_str g' = openjtalk_msg_voice_str g /\
    openjtalk_msg_language g' = openjtalk_msg_language g /\
    voice_search_paths g' = voice_search_paths g /\
    OpenjtalkDictionaryDirectory g' = OpenjtalkDictionaryDirectory g /\
    msg_settings g' = msg_settings g /\
    msg_settings_old g' = msg_settings_old g /\
    openjtalk_htsvoice_path g' =
      match openjtalk_msg_voice_str g with
      | None => None
      | Some voice =>
          option_map (substituted voice)
            (find (fun t => g_file_test w (substituted voice t)) (voice_search_paths g))
      end.
Proof.
  unfold update_htsvoice_path, bind, emit, modify, get, DBG. simpl.
  destruct (openjtalk_msg_voice_str g) as [voice|] eqn:Ev.
  - destruct (update_htsvoice_path_loop_run w voice (voice_search_paths g)
                (set_htsvoice_path None g)) as [tr Hrun].
    rewrite Hrun. simpl.
    destruct (find _ (voice_search_paths g)); simpl;
      do 2 eexists; (split; [reflexivity|]); simpl; repeat split; auto.
  - simpl. do 2 eexists. split; [reflexivity|]. simpl. repeat split; auto.
Qed.

(** C1. For every template list and every voice identifier,
    [update_htsvoice_path] returns and leaves as resolved path the
    substituted path of the first template, in insertion order, whose
    substituted path passes the file-existence test; the result is [None]
    exactly when no template's substituted path exists, which is the case
    for the empty list.  Templates are kept in the order in which the
    configuration added them. *)
Theorem C1_resolve_first_existing w g voice :
  openjtalk_msg_voice_str g = Some voice ->
  exists tr g',
    update_htsvoice_path w g = (tr, Ret (tt, g')) /\
    (forall p, openjtalk_htsvoice_path g' = Some p <->
               first_existing w voice (voice_search_paths g) p) /\
    (openjtalk_htsvoice_path g' = None <->
       none_existing w voice (voice_search_paths g)) /\
    (voice_search_paths g = [] -> openjtalk_htsvoice_path g' = None) /\
    (forall template,
       voice_search_paths (VoiceFileSearchPath_cb template g) =
         voice_search_paths g ++ [template]).
Proof.
  intros Hv.
  destruct (update_htsvoice_path_run w g)
    as (tr & g' & Hrun & _ & _ & _ & _ & _ & _ & Hpath).
  rewrite Hv in Hpath.
  exists (EvUpdateHtsvoicePath :: tr), g'. split; [exact Hrun|].
  destruct (find _ (voice_search_paths g)) as [t|] eqn:Ef; simpl in Hpath.
  - pose proof (find_first_existing _ _ _ _ Ef) as Hfirst.
    repeat split.
    + intros Hp. rewrite Hpath in Hp. injection Hp as <-. exact Hfirst.
    + intros Hp. rewrite Hpath. f_equal.
      exact (first_existing_unique _ _ _ _ _ Hfirst Hp).
    + rewrite Hpath. discriminate.
    + intros Hnone. destruct (first_existing_not_none _ _ _ _ Hfirst Hnone).
    + intros Hnil. rewrite Hnil in Ef. discriminate.
  - pose proof (find_none_existing _ _ _ Ef) as Hnone.
    repeat split; auto.
    + rewrite Hpath. discriminate.
    + intros Hp. destruct (first_existing_not_none _ _ _ _ Hp Hnone).
Qed.

Lemma C1_resolve_first_existing_witness :
  exists tr g',
    update_htsvoice_path w_ok (set_msg_voice_str (Some "female1") g_init)
      = (tr, Ret (tt, g')) /\
    openjtalk_htsvoice_path g' = Some "/voices/female1.htsvoice".
Proof.
  destruct (C1_resolve_first_existing w_ok
              (set_msg_voice_str (Some "female1") g_init) "female1" eq_refl)
    as (tr & g' & Hrun & Hsome & _).
  exists tr, g'. split; [exact Hrun|].
  apply Hsome. exists 0%nat, "/voices/$VOICE.htsvoice".
  repeat split. intros j t Hj. lia.
Defined.

(** ** Wav reader *)

Lemma le_decode_bounds l :
  0 <= le_decode l < 256 ^ Z.of_nat (List.length l).
Proof.
  induction l as [|b l IH].
  - simpl. lia.
  - change (le_decode (b :: l)) with (Z.of_N (Byte.to_N b) + 256 * le_decode l).
    pose proof (Byte.to_N_bounded b) as Hb.
    replace (Z.of_nat (List.length (b :: l))) with (Z.succ (Z.of_nat (List.length l)))
      by (simpl; lia).
    rewrite Z.pow_succ_r by lia. lia.
Qed.

Lemma bytes_at_length f off n :
  0 <= off -> 0 <= n ->
  Z.of_nat (List.length (bytes_at f off n)) = Z.min n (Z.max 0 (file_size f - off)).
Proof.
  intros Hoff Hn. unfold bytes_at, file_size.
  rewrite length_firstn, length_skipn. lia.
Qed.

Lemma bind_ret_eq {S A B} (m : M S A) (k : A -> M S B) s tr a s1 tr2 r :
  m s = (tr, Ret (a, s1)) ->
  k a s1 = (tr2, r) ->
  bind m k s = (tr ++ tr2, r).
Proof.
  intros H1 H2. unfold bind. rewrite H1, H2. reflexivity.
Qed.

Lemma run_eq {S A} (m : M S A) s tr r tr' r' :
  m s = (tr', r') -> tr' = tr -> r' = r -> m s = (tr, r).
Proof. intros -> -> ->. reflexivity. Qed.

Lemma udiv_run {S} (a b : Z) (s : S) :
  b <> 0 -> udiv a b s = ([], Ret (a / b, s)).
Proof.
  intros Hb. unfold udiv. destruct (Z.eqb_spec b 0); [contradiction|reflexivity].
Qed.

Lemma udiv_trap {S} (a b : Z) (s : S) :
  b = 0 -> udiv a b s = ([], @Trap (Z * S) DivByZero).
Proof. intros ->. reflexivity. Qed.

Lemma fread_full size nmemb f pos :
  0 < size -> 0 <= nmemb -> 0 <= pos ->
  pos + size * nmemb <= file_size f ->
  fread size nmemb {| f_data := f; f_pos := pos |} =
    ([EvFread size nmemb nmemb],
     Ret ((bytes_at f pos (size * nmemb), nmemb),
          {| f_data := f; f_pos := pos + size * nmemb |})).
Proof.
  intros Hs Hn Hp Hlen. unfold fread. simpl.
  fold (bytes_at f pos (size * nmemb)).
  assert (Hk : 0 <= size * nmemb) by nia.
  rewrite bytes_at_length by lia.
  replace (Z.min (size * nmemb) (Z.max 0 (file_size f - pos)))
    with (size * nmemb) by lia.
  rewrite Z.mul_comm, Z.div_mul by lia. reflexivity.
Qed.

Lemma fread_short size nmemb f pos :
  0 < size -> 0 < nmemb -> 0 <= pos ->
  file_size f < pos + size * nmemb ->
  exists got ret fp',
    fread size nmemb {| f_data := f; f_pos := pos |} =
      ([EvFread size nmemb ret], Ret ((got, ret), fp')) /\ 0 <= ret < nmemb.
Proof.
  intros Hs Hn Hp Hlen. unfold fread. simpl.
  fold (bytes_at f pos (size * nmemb)).
  do 3 eexists. split; [reflexivity|].
  assert (Hk : 0 <= size * nmemb) by nia.
  rewrite bytes_at_length by lia.
  split.
  - apply Z.div_pos; lia.
  - apply Z.div_lt_upper_bound; lia.
Qed.

Lemma uint32_small z : 0 <= z < 2 ^ 32 -> uint32 z = z.
Proof. intros H. unfold uint32. apply Z.mod_small. exact H. Qed.

Lemma header_fields_range f :
  0 <= header_bits f < 65536 /\ 0 <= header_channels f < 65536 /\
  0 <= header_sample_rate f < 2 ^ 32 /\ 0 <= header_size f < 2 ^ 32.
Proof.
  unfold header_bits, header_channels, header_sample_rate, header_size.
  pose proof (le_decode_bounds (bytes_at f 34 2)) as H1.
  pose proof (le_decode_bounds (bytes_at f 22 2)) as H2.
  pose proof (le_decode_bounds (bytes_at f 24 4)) as H3.
  pose proof (le_decode_bounds (bytes_at f 40 4)) as H4.
  rewrite bytes_at_length in H1, H2, H3, H4 by lia.
  assert (P : forall a b, 0 <= b -> 256 ^ Z.min a b <= 256 ^ a).
  { intros a b Hb. apply Z.pow_le_mono_r; lia. }
  pose proof (P 2 (Z.max 0 (file_size f - 34)) ltac:(lia)).
  pose proof (P 2 (Z.max 0 (file_size f - 22)) ltac:(lia)).
  pose proof (P 4 (Z.max 0 (file_size f - 24)) ltac:(lia)).
  pose proof (P 4 (Z.max 0 (file_size f - 40)) ltac:(lia)).
  change (256 ^ 2) with 65536 in *. change (256 ^ 4) with (2 ^ 32) in *.
  lia.
Qed.

Lemma samples_times_channels f :
  1 <= header_channels f -> 8 <= header_bits f ->
  0 <= header_samples f /\
  0 <= header_samples f * header_channels f /\
  header_samples f * header_channels f <= header_size f /\
  1 <= header_bits f / 8 /\
  0 <= block_size f <= header_size f.
Proof.
  intros Hc Hb. pose proof (header_fields_range f) as (_ & _ & _ & Hs).
  unfold block_size, header_samples.
  set (c := header_channels f) in *. set (s := header_size f) in *.
  assert (Hk : 1 <= header_bits f / 8) by (apply Z.div_le_lower_bound; lia).
  set (k := header_bits f / 8) in *.
  assert (H1 : 0 <= s / c) by (apply Z.div_pos; lia).
  assert (H2 : 0 <= s / c / k) by (apply Z.div_pos; lia).
  assert (H3 : k * (s / c / k) <= s / c) by (apply Z.mul_div_le; lia).
  assert (H4 : c * (s / c) <= s) by (apply Z.mul_div_le; lia).
  repeat split; try nia.
Qed.

#[local] Arguments bytes_at : simpl never.
#[local] Arguments uint32 : simpl never.

Ltac run_simple :=
  lazymatch goal with
  | |- bind (fseek _) _ _ = _ =>
      eapply bind_ret_eq; [reflexivity | cbv beta; cbn [f_data f_pos]]
  | |- bind (DBG _) _ _ = _ => eapply bind_ret_eq; [reflexivity | cbv beta]
  | |- bind (emit _) _ _ = _ => eapply bind_ret_eq; [reflexivity | cbv beta]
  | |- bind get _ _ = _ => eapply bind_ret_eq; [reflexivity | cbv beta]
  | |- bind (modify _) _ _ = _ => eapply bind_ret_eq; [reflexivity | cbv beta]
  | |- ret _ _ = _ => reflexivity
  | |- emit _ _ = _ => reflexivity
  | |- DBG _ _ = _ => reflexivity
  end.

Ltac wav_offsets :=
  unfold WAV_START_BITS_PER_SAMPLE, WAV_START_NUM_CHANNELS,
    WAV_START_SAMPLE_RATE, WAV_START_SIZE_OF_SAMPLES, WAV_START_SAMPLES in *.

(** One complete read of a header field. *)
Ltac read_field :=
  eapply bind_ret_eq;
  [ apply fread_full; cbn [f_data f_pos]; wav_offsets; lia
  | cbn [fst snd f_data f_pos]; change (negb (1 =? 1)) with false; cbv iota ].

(** The reads of the header on a file of at least 44 bytes. *)
Ltac run_header :=
  unfold extract, open_file;
  run_simple; read_field; run_simple; run_simple;
  read_field; run_simple; run_simple;
  read_field; run_simple; run_simple;
  read_field;
  match goal with
  | |- context [bytes_at ?f _ _] =>
      change (le_decode (bytes_at f WAV_START_BITS_PER_SAMPLE (2 * 1)))
        with (header_bits f);
      change (le_decode (bytes_at f WAV_START_NUM_CHANNELS (2 * 1)))
        with (header_channels f);
      change (le_decode (bytes_at f WAV_START_SAMPLE_RATE (4 * 1)))
        with (header_sample_rate f);
      change (le_decode (bytes_at f WAV_START_SIZE_OF_SAMPLES (4 * 1)))
        with (header_size f)
  end.

Lemma extract_ok f :
  44 <= file_size f -> 1 <= header_channels f -> 8 <= header_bits f ->
  44 + block_size f <= file_size f ->
  exists fp',
    extract (open_file f) =
      (header_trace ++ block_trace f (header_samples f * header_channels f)
         ++ [EvDbg "read track.samples"],
       Ret (inr (track_of f), fp')).
Proof.
  intros Hlen Hc Hb Hblk.
  pose proof (samples_times_channels f Hc Hb) as (Hs0 & Hsc0 & Hsc & Hk & Hle).
  pose proof (header_fields_range f) as (Rb & Rc & Rr & Rs).
  eexists. eapply run_eq.
  - run_header.
    eapply bind_ret_eq; [apply udiv_run; lia | cbv beta].
    eapply bind_ret_eq; [apply udiv_run; lia | cbv beta].
    fold (header_samples f).
    run_simple. run_simple. run_simple. run_simple.
    rewrite (uint32_small (header_samples f * header_channels f)) by lia.
    eapply bind_ret_eq;
      [apply fread_full; cbn [f_data f_pos]; wav_offsets; unfold block_size in Hblk; lia
      | cbn [fst snd f_data f_pos]].
    rewrite Z.eqb_refl. cbn [negb]. run_simple. reflexivity.
  - reflexivity.
  - unfold track_of, block_size.
    rewrite (uint32_small (header_samples f * header_channels f)) by lia.
    replace (header_bits f / 8 * (header_samples f * header_channels f))
      with (header_samples f * header_channels f * (header_bits f / 8)) by lia.
    reflexivity.
Qed.

Lemma negb_eqb_lt ret n : 0 <= ret < n -> negb (ret =? n) = true.
Proof. intros H. destruct (Z.eqb_spec ret n); [lia|reflexivity]. Qed.

Lemma extract_short_bits f :
  file_size f < 36 ->
  exists ret fp',
    extract (open_file f) =
      ([EvFseek 34; EvFread 2 1 ret; EvDbg "failed to read track.bits"],
       Ret (inl StepBits, fp')) /\ 0 <= ret < 1.
Proof.
  intros Hlen.
  destruct (fread_short 2 1 f 34) as (got & ret & fp' & Hread & Hret); try lia.
  exists ret, fp'. split; [|exact Hret].
  eapply run_eq.
  - unfold extract, open_file. run_simple.
    eapply bind_ret_eq; [exact Hread | cbn [fst snd]].
    rewrite (negb_eqb_lt _ _ Hret). run_simple. reflexivity.
  - reflexivity.
  - reflexivity.
Qed.

Lemma extract_short_size f :
  36 <= file_size f < 44 ->
  exists ret fp',
    extract (open_file f) =
      ([EvFseek 34; EvFread 2 1 1; EvDbg "read track.bits";
        EvFseek 22; EvFread 2 1 1; EvDbg "read track.num_channels";
        EvFseek 24; EvFread 4 1 1; EvDbg "read track.sample_rate";
        EvFseek 40; EvFread 4 1 ret; EvDbg "failed to read track.num_samples"],
       Ret (inl StepSizeOfSamples, fp')) /\ 0 <= ret < 1.
Proof.
  intros Hlen.
  destruct (fread_short 4 1 f 40) as (got & ret & fp' & Hread & Hret); try lia.
  exists ret, fp'. split; [|exact Hret].
  eapply run_eq.
  - unfold extract, open_file.
    run_simple; read_field; run_simple; run_simple;
    read_field; run_simple; run_simple;
    read_field; run_simple; run_simple.
    eapply bind_ret_eq; [exact Hread | cbn [fst snd]].
    rewrite (negb_eqb_lt _ _ Hret). run_simple. reflexivity.
  - reflexivity.
  - reflexivity.
Qed.

Lemma extract_div_by_zero f :
  44 <= file_size f ->
  header_channels f = 0 \/ header_bits f < 8 ->
  extract (open_file f) = (header_trace, Trap DivByZero).
Proof.
  intros Hlen Hz.
  pose proof (header_fields_range f) as (Rb & Rc & Rr & Rs).
  destruct (Z.eq_dec (header_channels f) 0) as [Hc|Hc].
  - eapply run_eq.
    + run_header.
      unfold bind at 1. rewrite (udiv_trap _ _ _ Hc). reflexivity.
    + reflexivity.
    + reflexivity.
  - destruct Hz as [Hz|Hz]; [contradiction|].
    eapply run_eq.
    + run_header.
      eapply bind_ret_eq; [apply udiv_run; exact Hc | cbv beta].
      unfold bind at 1. rewrite udiv_trap; [reflexivity|].
      apply Z.div_small. lia.
    + reflexivity.
    + reflexivity.
Qed.

Lemma extract_short_samples f :
  44 <= file_size f -> 1 <= header_channels f -> 8 <= header_bits f ->
  file_size f < 44 + block_size f ->
  exists ret fp',
    extract (open_file f) =
      (header_trace ++ block_trace f ret
         ++ [EvDbg "failed to read track.samples"; EvFree FreedSamples],
       Ret (inl StepSamples, fp')) /\
    0 <= ret < header_samples f * header_channels f.
Proof.
  intros Hlen Hc Hb Hblk.
  pose proof (samples_times_channels f Hc Hb) as (Hs0 & Hsc0 & Hsc & Hk & Hle).
  pose proof (header_fields_range f) as (Rb & Rc & Rr & Rs).
  destruct (fread_short (header_bits f / 8)
              (header_samples f * header_channels f) f 44)
    as (got & ret & fp' & Hread & Hret); try lia.
  { unfold block_size in Hblk. nia. }
  { unfold block_size in Hblk. lia. }
  exists ret, fp'. split; [|exact Hret].
  eapply run_eq.
  - run_header.
    eapply bind_ret_eq; [apply udiv_run; lia | cbv beta].
    eapply bind_ret_eq; [apply udiv_run; lia | cbv beta].
    fold (header_samples f).
    run_simple. run_simple. run_simple. run_simple.
    rewrite (uint32_small (header_samples f * header_channels f)) by lia.
    eapply bind_ret_eq; [exact Hread | cbn [fst snd]].
    rewrite (negb_eqb_lt _ _ Hret). run_simple. run_simple. reflexivity.
  - reflexivity.
  - reflexivity.
Qed.

(** The five ways a run of the reader can go, by the size of the file and
    the header fields. *)
Lemma extract_cases f :
  (file_size f < 36 /\
   exists ret fp',
     extract (open_file f) =
       ([EvFseek 34; EvFread 2 1 ret; EvDbg "failed to read track.bits"],
        Ret (inl StepBits, fp')) /\ 0 <= ret < 1) \/
  (36 <= file_size f < 44 /\
   exists ret fp',
     extract (open_file f) =
       ([EvFseek 34; EvFread 2 1 1; EvDbg "read track.bits";
         EvFseek 22; EvFread 2 1 1; EvDbg "read track.num_channels";
         EvFseek 24; EvFread 4 1 1; EvDbg "read track.sample_rate";
         EvFseek 40; EvFread 4 1 ret; EvDbg "failed to read track.num_samples"],
        Ret (inl StepSizeOfSamples, fp')) /\ 0 <= ret < 1) \/
  (44 <= file_size f /\ (header_channels f = 0 \/ header_bits f < 8) /\
   extract (open_file f) = (header_trace, Trap DivByZero)) \/
  (44 <= file_size f /\ 1 <= header_channels f /\ 8 <= header_bits f /\
   file_size f < 44 + block_size f /\
   exists ret fp',
     extract (open_file f) =
       (header_trace ++ block_trace f ret
          ++ [EvDbg "failed to read track.samples"; EvFree FreedSamples],
        Ret (inl StepSamples, fp')) /\
     0 <= ret < header_samples f * header_channels f) \/
  (44 <= file_size f /\ 1 <= header_channels f /\ 8 <= header_bits f /\
   44 + block_size f <= file_size f /\
   exists fp',
     extract (open_file f) =
       (header_trace ++ block_trace f (header_samples f * header_channels f)
          ++ [EvDbg "read track.samples"],
        Ret (inr (track_of f), fp'))).
Proof.
  pose proof (header_fields_range f) as (Rb & Rc & _ & _).
  destruct (Z_lt_le_dec (file_size f) 36) as [H36|H36].
  { left. split; [exact H36|]. apply extract_short_bits. exact H36. }
  destruct (Z_lt_le_dec (file_size f) 44) as [H44|H44].
  { right; left. split; [lia|]. apply extract_short_size. lia. }
  destruct (Z.eq_dec (header_channels f) 0) as [Hc|Hc].
  { do 2 right; left. repeat split; auto. apply extract_div_by_zero; auto. }
  destruct (Z_lt_le_dec (header_bits f) 8) as [Hb|Hb].
  { do 2 right; left. repeat split; auto. apply extract_div_by_zero; auto. }
  destruct (Z_lt_le_dec (file_size f) (44 + block_size f)) as [Hk|Hk].
  { do 3 right; left. repeat split; try lia. apply extract_short_samples; lia. }
  do 4 right. repeat split; try lia. apply extract_ok; lia.
Qed.

Lemma well_formed_block f :
  well_formed f ->
  44 <= file_size f /\ 1 <= header_channels f /\ 8 <= header_bits f /\
  44 + block_size f <= file_size f.
Proof.
  intros (Hc & Hb & Hlen).
  pose proof (samples_times_channels f Hc Hb) as (_ & _ & _ & _ & Hle).
  pose proof (header_fields_range f) as (_ & _ & _ & Hs).
  lia.
Qed.

Lemma block_length f :
  1 <= header_channels f -> 8 <= header_bits f ->
  44 + block_size f <= file_size f ->
  Z.of_nat (List.length (bytes_at f 44 (block_size f))) = block_size f.
Proof.
  intros Hc Hb Hlen.
  pose proof (samples_times_channels f Hc Hb) as (_ & _ & _ & _ & Hle).
  rewrite bytes_at_length by lia. lia.
Qed.

(** C2. On every well-formed fixed-offset file the reader seeks to offset
    34 and reads the 2 bytes of bits-per-sample, then to 22 for the 2 bytes
    of the channel count, then to 24 for the 4 bytes of the sample rate,
    then to 40 for the 4 bytes of the data byte length, each by a seek and a
    read of its own and in this order; it computes
    [num_samples = size / channels / (bits / 8)], seeks to offset 44 and
    reads the sample block of [num_samples * channels] items of [bits / 8]
    bytes from there.  For 2 channels, 16 bits and 400 data bytes this
    gives 100 samples and 400 bytes read from offset 44. *)
Theorem C2_extract_fixed_offsets f :
  well_formed f ->
  exists track buf fp',
    extract (open_file f) =
      ([EvFseek 34; EvFread 2 1 1; EvDbg "read track.bits";
        EvFseek 22; EvFread 2 1 1; EvDbg "read track.num_channels";
        EvFseek 24; EvFread 4 1 1; EvDbg "read track.sample_rate";
        EvFseek 40; EvFread 4 1 1; EvDbg "read track.num_samples";
        EvDbg "bits: %d num_channels: %d sample_rate: %d num_samples: %d";
        EvFseek 44;
        EvMalloc (buf_size buf);
        EvFread (bits track / 8) (num_samples track * num_channels track)
          (num_samples track * num_channels track);
        EvDbg "read track.samples"],
       Ret (inr track, fp')) /\
    bits track = le_decode (bytes_at f 34 2) /\
    num_channels track = le_decode (bytes_at f 22 2) /\
    sample_rate track = le_decode (bytes_at f 24 4) /\
    num_samples track =
      le_decode (bytes_at f 40 4) / num_channels track / (bits track / 8) /\
    samples track = Some buf /\
    buf_data buf =
      bytes_at f 44 (num_samples track * num_channels track * (bits track / 8)) /\
    Z.of_nat (List.length (buf_data buf)) =
      num_samples track * num_channels track * (bits track / 8).
Proof.
  intros Hwf. destruct (well_formed_block f Hwf) as (Hlen & Hc & Hb & Hblk).
  destruct (extract_ok f Hlen Hc Hb Hblk) as [fp' Hrun].
  exists (track_of f),
    {| buf_size :=
         uint32 (uint32 (header_samples f * header_channels f) * header_bits f) / 8;
       buf_data := bytes_at f 44 (block_size f) |}, fp'.
  split; [exact Hrun|].
  repeat split.
  exact (block_length f Hc Hb Hblk).
Qed.

Lemma C2_extract_fixed_offsets_witness :
  well_formed wav_stereo16 /\
  header_channels wav_stereo16 = 2 /\
  header_bits wav_stereo16 = 16 /\
  header_size wav_stereo16 = 400 /\
  exists tr track buf fp',
    extract (open_file wav_stereo16) = (tr, Ret (inr track, fp')) /\
    num_samples track = 100 /\
    samples track = Some buf /\
    buf_data buf = bytes_at wav_stereo16 44 400 /\
    Z.of_nat (List.length (buf_data buf)) = 400.
Proof.
  assert (Hwf : well_formed wav_stereo16).
  { repeat split; apply Z.leb_le; vm_compute; reflexivity. }
  split; [exact Hwf|].
  repeat (split; [vm_compute; reflexivity|]).
  destruct (C2_extract_fixed_offsets wav_stereo16 Hwf)
    as (track & buf & fp' & Hrun & Hb & Hc & _ & Hn & Hs & Hd & Hl).
  eexists; exists track, buf, fp'. split; [exact Hrun|].
  assert (Hn' : num_samples track = 100).
  { rewrite Hn, Hc, Hb. vm_compute. reflexivity. }
  rewrite Hn', Hc, Hb in Hd, Hl.
  repeat split; auto.
Defined.

Lemma extract_success_inv f tr track fp' :
  extract (open_file f) = (tr, Ret (inr track, fp')) ->
  44 <= file_size f /\ 1 <= header_channels f /\ 8 <= header_bits f /\
  44 + block_size f <= file_size f /\
  track = track_of f /\
  tr = header_trace ++ block_trace f (header_samples f * header_channels f)
         ++ [EvDbg "read track.samples"].
Proof.
  intros H.
  destruct (extract_cases f)
    as [(_ & ret & fp0 & E & _)
       |[(_ & ret & fp0 & E & _)
       |[(_ & _ & E)
       |[(_ & _ & _ & _ & ret & fp0 & E & _)
       |(Hlen & Hc & Hb & Hblk & fp0 & E)]]]];
    rewrite E in H; try discriminate.
  injection H as <- <- _. repeat split; auto.
Qed.

Lemma alloc_exact n c b :
  0 <= n * c -> 0 <= b -> b mod 8 = 0 -> n * c * b < 2 ^ 32 ->
  uint32 (uint32 (n * c) * b) / 8 = n * c * (b / 8).
Proof.
  intros Hnc Hb Hmod Hlt.
  assert (Hb8 : b = 8 * (b / 8)) by (apply Z.div_exact; lia).
  assert (Hk : 0 <= b / 8) by (apply Z.div_pos; lia).
  destruct (Z.eq_dec b 0) as [->|Hb0].
  - rewrite Z.mul_0_r. unfold uint32. rewrite Z.mod_0_l by lia.
    change (0 / 8) with 0. lia.
  - assert (Hnc' : n * c < 2 ^ 32) by nia.
    rewrite (uint32_small (n * c)) by lia.
    rewrite uint32_small by nia.
    rewrite Hb8 at 1.
    replace (n * c * (8 * (b / 8))) with (n * c * (b / 8) * 8) by lia.
    apply Z.div_mul. lia.
Qed.

(** C3 (as amended).  On every successful extraction the number of bytes
    read into the sample buffer is exactly
    [num_samples * num_channels * (bits / 8)], and the size that was
    passed to [malloc] for it is that same product whenever [bits] is a
    multiple of 8 and [num_samples * num_channels * bits] is below 2^32. *)
Theorem C3_buffer_length f tr track fp' :
  extract (open_file f) = (tr, Ret (inr track, fp')) ->
  exists buf,
    samples track = Some buf /\
    In (EvMalloc (buf_size buf)) tr /\
    In (EvFread (bits track / 8) (num_samples track * num_channels track)
          (num_samples track * num_channels track)) tr /\
    Z.of_nat (List.length (buf_data buf)) =
      num_samples track * num_channels track * (bits track / 8) /\
    (bits track mod 8 = 0 ->
     num_samples track * num_channels track * bits track < 2 ^ 32 ->
     buf_size buf = num_samples track * num_channels track * (bits track / 8)).
Proof.
  intros H.
  destruct (extract_success_inv f tr track fp' H)
    as (Hlen & Hc & Hb & Hblk & -> & ->).
  pose proof (samples_times_channels f Hc Hb) as (Hs0 & Hsc0 & Hsc & Hk & Hle).
  eexists. split; [reflexivity|]. cbn [buf_size buf_data track_of bits
    num_samples num_channels].
  split; [| split; [| split]].
  - apply in_or_app. right. apply in_or_app. left. simpl. tauto.
  - apply in_or_app. right. apply in_or_app. left. simpl. tauto.
  - exact (block_length f Hc Hb Hblk).
  - intros Hmod Hlt. apply alloc_exact; lia.
Qed.

Lemma C3_buffer_length_witness :
  exists tr track fp' buf,
    extract (open_file wav_stereo16) = (tr, Ret (inr track, fp')) /\
    samples track = Some buf /\
    Z.of_nat (List.length (buf_data buf)) = 400 /\
    buf_size buf = 400.
Proof.
  destruct (extract_ok wav_stereo16) as [fp' Hrun];
    try (apply Z.leb_le; vm_compute; reflexivity).
  destruct (C3_buffer_length wav_stereo16 _ _ _ Hrun)
    as (buf & Hs & _ & _ & Hlen & Hsize).
  eexists; exists (track_of wav_stereo16), fp', buf.
  split; [exact Hrun|]. split; [exact Hs|].
  split.
  - rewrite Hlen. vm_compute. reflexivity.
  - rewrite Hsize.
    + vm_compute. reflexivity.
    + vm_compute. reflexivity.
    + vm_compute. reflexivity.
Defined.

(** C3 fails as stated: on a 12-bit mono file with two bytes of samples the
    extraction succeeds with two bytes read (the product) into a buffer
    allocated with three. *)
Lemma C3_counterexample :
  exists tr track fp' buf,
    extract (open_file wav_mono12) = (tr, Ret (inr track, fp')) /\
    samples track = Some buf /\
    num_samples track * num_channels track * (bits track / 8) = 2 /\
    Z.of_nat (List.length (buf_data buf)) = 2 /\
    buf_size buf = 3 /\
    buf_size buf <> num_samples track * num_channels track * (bits track / 8).
Proof.
  destruct (extract_ok wav_mono12) as [fp' Hrun];
    try (apply Z.leb_le; vm_compute; reflexivity).
  eexists; exists (track_of wav_mono12), fp'; eexists.
  split; [exact Hrun|]. split; [reflexivity|].
  repeat split; try (vm_compute; reflexivity).
  vm_compute. discriminate.
Qed.





(** A run of the reader that fails did so on a short read. *)
Lemma extract_failure_inv f tr step fp' :
  extract (open_file f) = (tr, Ret (inl step, fp')) ->
  short_read tr.
Proof.
  intros Hrun.
  destruct (extract_cases f)
    as [(Hlen & ret & fp0 & E & Hret)
       |[(Hlen & ret & fp0 & E & Hret)
       |[(Hlen & Hz & E)
       |[(Hlen & Hc & Hb & Hblk & ret & fp0 & E & Hret)
       |(Hlen & Hc & Hb & Hblk & fp0 & E)]]]];
    rewrite E in Hrun; try discriminate; injection Hrun as <- <- <-.
  - exists 2, 1, ret. split; [simpl; tauto | lia].
  - exists 4, 1, ret. split; [simpl; tauto | lia].
  - exists (header_bits f / 8), (header_samples f * header_channels f), ret.
    split; [simpl; tauto | lia].
Qed.



(** C10. The sample count is computed by two divisions, by the channel
    count and by [bits / 8], with no guard: on every file with a complete
    header, at least one channel and at least 8 bits both divisions are
    defined and the run returns; with a channel count of 0, or with fewer
    than 8 bits, the run divides by zero, and there are files with such
    headers. *)
Theorem C10_division_by_zero :
  (forall f, 44 <= file_size f ->
             1 <= header_channels f -> 8 <= header_bits f ->
             exists tr r, extract (open_file f) = (tr, Ret r)) /\
  (forall f, 44 <= file_size f ->
             header_channels f = 0 \/ header_bits f < 8 ->
             extract (open_file f) = (header_trace, Trap DivByZero)) /\
  (forall f tr, extract (open_file f) = (tr, Trap DivByZero) ->
                44 <= file_size f /\
                (header_channels f = 0 \/ header_bits f < 8)) /\
  (header_channels wav_no_channels = 0 /\
   extract (open_file wav_no_channels) = (header_trace, Trap DivByZero)) /\
  (header_channels wav_4bit = 1 /\ header_bits wav_4bit = 4 /\
   extract (open_file wav_4bit) = (header_trace, Trap DivByZero)).
Proof.
  split; [| split; [| split; [| split]]].
  - intros f Hlen Hc Hb.
    destruct (Z_lt_le_dec (file_size f) (44 + block_size f)) as [Hk|Hk].
    + destruct (extract_short_samples f Hlen Hc Hb Hk) as (ret & fp' & E & _).
      rewrite E. eauto.
    + destruct (extract_ok f Hlen Hc Hb Hk) as (fp' & E).
      rewrite E. eauto.
  - intros f Hlen Hz. apply extract_div_by_zero; assumption.
  - intros f tr H.
    destruct (extract_cases f)
      as [(_ & ret & fp0 & E & _)
         |[(_ & ret & fp0 & E & _)
         |[(Hlen & Hz & E)
         |[(_ & _ & _ & _ & ret & fp0 & E & _)
         |(_ & _ & _ & _ & fp0 & E)]]]];
      rewrite E in H; try discriminate.
    split; assumption.
  - split; [vm_compute; reflexivity|].
    apply extract_div_by_zero.
    + apply Z.leb_le. vm_compute. reflexivity.
    + left. vm_compute. reflexivity.
  - split; [vm_compute; reflexivity|]. split; [vm_compute; reflexivity|].
    apply extract_div_by_zero.
    + apply Z.leb_le. vm_compute. reflexivity.
    + right. vm_compute. reflexivity.
Qed.

Lemma C10_division_by_zero_witness :
  (exists tr r, extract (open_file wav_stereo16) = (tr, Ret r)) /\
  extract (open_file wav_no_channels) = (header_trace, Trap DivByZero) /\
  extract (open_file wav_4bit) = (header_trace, Trap DivByZero).
Proof.
  destruct C10_division_by_zero as (Hok & Htrap & _).
  split; [| split].
  - apply Hok; apply Z.leb_le; vm_compute; reflexivity.
  - apply Htrap.
    + apply Z.leb_le. vm_compute. reflexivity.
    + left. vm_compute. reflexivity.
  - apply Htrap.
    + apply Z.leb_le. vm_compute. reflexivity.
    + right. vm_compute. reflexivity.
Defined.

(** ** Speak request *)

Lemma on_file_run {A} fp (m : M FILE A) (g : globals) :
  on_file fp m g =
    (fst (m fp),
     match snd (m fp) with
     | Ret (a, _) => Ret (a, g)
     | Trap t => Trap t
     end).
Proof.
  unfold on_file. destruct (m fp) as [tr [[a fp']|t]]; reflexivity.
Qed.

(** Every run of the body goes one of the ways of [speak_path]. *)
Lemma module_speak_sync_body_paths w data g :
  exists p,
    path_taken w g p /\
    module_speak_sync_body w data g = (path_trace p, path_result g p).
Proof.
  unfold module_speak_sync_body.
  unfold bind at 1. unfold get at 1. cbv iota beta.
  destruct (openjtalk_htsvoice_path g) as [path|] eqn:Epath.
  2:{ exists NoVoice. split; [exact Epath | reflexivity]. }
  assert (Hp : openjtalk_htsvoice_path g <> None) by (rewrite Epath; discriminate).
  destruct (mkstemp w "/tmp/speechd-openjtalk-XXXXXX") as [template|] eqn:Etmp.
  2:{ exists TempFileError. split; [split; assumption|].
      unfold bind, emit, DBG, FINISH. simpl. rewrite ?Etmp. reflexivity. }
  destruct (asprintf_ok w) eqn:Easp.
  2:{ exists (CommandLineError template). split; [repeat split; assumption|].
      unfold bind, emit, DBG, TEMPLATE_FINISH, FINISH. simpl.
      rewrite ?Etmp, ?Easp. reflexivity. }
  set (cmd := String.append "open_jtalk -x "
                (String.append (OpenjtalkDictionaryDirectory g)
                   (String.append " -m "
                      (String.append path (String.append " -ow " template))))).
  destruct (popen_ok w cmd) eqn:Epopen.
  2:{ exists (ProcessSpawnError template cmd). split; [repeat split; assumption|].
      unfold bind, emit, DBG, TEMPLATE_FINISH, FINISH. simpl.
      rewrite ?Etmp, ?Easp. simpl. fold cmd. rewrite ?Epopen. reflexivity. }
  set (text := module_strip_ssml w data).
  destruct (Z.eqb_spec (pclose_status w cmd text) 0) as [Est|Est].
  2:{ exists (ProcessExitError template cmd text (pclose_status w cmd text)).
      split; [repeat split; assumption|].
      unfold bind, emit, DBG, TEMPLATE_FINISH, FINISH. simpl.
      rewrite ?Etmp, ?Easp. simpl. fold cmd. rewrite ?Epopen. simpl. fold text.
      destruct (Z.eqb_spec (pclose_status w cmd text) 0); [contradiction|].
      reflexivity. }
  destruct (fopen w template) as [content|] eqn:Eopen.
  2:{ exists (OpenError template cmd text). split; [repeat split; assumption|].
      unfold bind, emit, DBG, TEMPLATE_FINISH, FINISH. simpl.
      rewrite ?Etmp, ?Easp. simpl. fold cmd. rewrite ?Epopen. simpl. fold text.
      rewrite ?Est. simpl. rewrite ?Eopen. reflexivity. }
  destruct (extract (open_file content)) as [reader [[[step|track] fp']|t]] eqn:Ex.
  - exists (WavReadError template cmd text reader step).
    split; [repeat split; try assumption; exists content, fp'; split; assumption|].
    unfold bind, emit, DBG, FP_FINISH, TEMPLATE_FINISH, FINISH. simpl.
    rewrite ?Etmp, ?Easp. simpl. fold cmd. rewrite ?Epopen. simpl. fold text.
    rewrite ?Est. simpl. rewrite ?Eopen. simpl.
    rewrite on_file_run. fold (open_file content). rewrite ?Ex. simpl.
    rewrite <- ?app_assoc. reflexivity.
  - exists (Spoken template cmd text reader track).
    split; [repeat split; try assumption; exists content, fp'; split; assumption|].
    unfold bind, emit, DBG, FP_FINISH, TEMPLATE_FINISH, FINISH. simpl.
    rewrite ?Etmp, ?Easp. simpl. fold cmd. rewrite ?Epopen. simpl. fold text.
    rewrite ?Est. simpl. rewrite ?Eopen. simpl.
    rewrite on_file_run. fold (open_file content). rewrite ?Ex. simpl.
    rewrite <- ?app_assoc. reflexivity.
  - exists (ReaderTrap template cmd text reader t).
    split; [repeat split; try assumption; exists content; split; assumption|].
    unfold bind, emit, DBG, FP_FINISH, TEMPLATE_FINISH, FINISH. simpl.
    rewrite ?Etmp, ?Easp. simpl. fold cmd. rewrite ?Epopen. simpl. fold text.
    rewrite ?Est. simpl. rewrite ?Eopen. simpl.
    rewrite on_file_run. fold (open_file content). rewrite ?Ex. simpl.
    rewrite ?app_nil_r. reflexivity.
Qed.

Lemma emits_fread P size nmemb :
  (forall ret, P (EvFread size nmemb ret) = true) -> emits P (fread size nmemb).
Proof. intros H s. simpl. rewrite H. reflexivity. Qed.

Lemma emits_udiv {S} P a b : emits P (@udiv S a b).
Proof. intros s. unfold udiv. destruct (b =? 0); reflexivity. Qed.

Lemma emits_fseek P off : P (EvFseek off) = true -> emits P (fseek off).
Proof. intros H s. simpl. rewrite H. reflexivity. Qed.

Ltac emits_all :=
  repeat first
    [ apply emits_fseek; reflexivity
    | apply emits_fread; intros; reflexivity
    | apply emits_udiv
    | emits_step ].

Lemma extract_emits : emits reader_event extract.
Proof. unfold extract. emits_all. Qed.

Lemma update_htsvoice_path_loop_emits w voice paths :
  emits selection_event (update_htsvoice_path_loop w voice paths).
Proof.
  induction paths as [|t rest IH]; simpl.
  - emits_all.
  - emits_all. exact IH.
Qed.

Lemma update_htsvoice_path_emits w : emits selection_event (update_htsvoice_path w).
Proof.
  unfold update_htsvoice_path. emits_all. apply update_htsvoice_path_loop_emits.
Qed.

Lemma openjtalk_set_voice_emits w voice :
  emits selection_event (openjtalk_set_voice w voice).
Proof.
  unfold openjtalk_set_voice. emits_all; apply update_htsvoice_path_emits.
Qed.

Lemma openjtalk_set_language_emits w lang :
  emits selection_event (openjtalk_set_language w lang).
Proof.
  unfold openjtalk_set_language. emits_all. apply openjtalk_set_voice_emits.
Qed.

Lemma openjtalk_set_synthesis_voice_emits w name :
  emits selection_event (openjtalk_set_synthesis_voice w name).
Proof.
  unfold openjtalk_set_synthesis_voice. emits_all. apply update_htsvoice_path_emits.
Qed.

Lemma update_parameters_emits w : emits selection_event (update_parameters w).
Proof.
  unfold update_parameters, UPDATE_STRING_PARAMETER, UPDATE_PARAMETER.
  emits_all;
    first [ apply openjtalk_set_language_emits
          | apply openjtalk_set_voice_emits
          | apply openjtalk_set_synthesis_voice_emits ].
Qed.

(** A speak request is the parameter update followed by one of the ways
    of [speak_path]; a failed assertion in the update ends it. *)
Lemma module_speak_sync_cases w data g :
  exists tr0,
    forallb selection_event tr0 = true /\
    ((exists t,
        update_parameters w g = (tr0, Trap t) /\
        module_speak_sync w data g = (EvDbg "speaking '%s'" :: tr0, Trap t)) \/
     (exists g1 p,
        update_parameters w g = (tr0, Ret (tt, g1)) /\
        path_taken w g1 p /\
        module_speak_sync w data g =
          (EvDbg "speaking '%s'" :: tr0 ++ path_trace p, path_result g1 p))).
Proof.
  pose proof (update_parameters_emits w g) as Hsel.
  unfold module_speak_sync.
  destruct (update_parameters w g) as [tr0 [[[] g1]|t]] eqn:E; simpl in Hsel.
  - exists tr0. split; [exact Hsel|]. right.
    destruct (module_speak_sync_body_paths w data g1) as (p & Htaken & Hbody).
    exists g1, p. split; [reflexivity|]. split; [exact Htaken|].
    unfold bind at 1. unfold DBG at 1, emit at 1. cbv iota beta.
    unfold bind at 1. rewrite E, Hbody. reflexivity.
  - exists tr0. split; [exact Hsel|]. left. exists t. split; [reflexivity|].
    unfold bind at 1. unfold DBG at 1, emit at 1. cbv iota beta.
    unfold bind at 1. rewrite E. reflexivity.
Qed.

Lemma forallb_in (P : event -> bool) l e :
  forallb P l = true -> In e l -> P e = true.
Proof. intros H Hin. exact (proj1 (forallb_forall P l) H e Hin). Qed.

(** The events of the reader on the way [p]. *)
Lemma path_reader_events w g p :
  path_taken w g p ->
  match p with
  | WavReadError _ _ _ reader _
  | ReaderTrap _ _ _ reader _
  | Spoken _ _ _ reader _ => forallb reader_event reader = true
  | _ => True
  end.
Proof.
  destruct p; simpl; auto.
  - intros (_ & _ & _ & _ & _ & content & fp' & _ & E).
    pose proof (extract_emits (open_file content)) as H. rewrite E in H. exact H.
  - intros (_ & _ & _ & _ & _ & content & _ & E).
    pose proof (extract_emits (open_file content)) as H. rewrite E in H. exact H.
  - intros (_ & _ & _ & _ & _ & content & fp' & _ & E).
    pose proof (extract_emits (open_file content)) as H. rewrite E in H. exact H.
Qed.

(** Membership in a trace built from literal pieces and pieces known by
    the kind of their events. *)
Ltac in_absurd H :=
  match goal with
  | Hl : forallb ?P ?l = true |- _ =>
      match type of H with
      | In ?e l =>
          let X := fresh in
          pose proof (forallb_in P l e Hl H) as X; simpl in X; discriminate X
      end
  end.

Ltac in_inv H :=
  simpl in H;
  repeat first
    [ in_absurd H
    | match type of H with
      | _ \/ _ => destruct H as [H|H]; [try discriminate H|]
      | False => destruct H
      | In _ (_ ++ _) => apply in_app_or in H; destruct H as [H|H]; [|simpl in H]
      end ].

Ltac not_of_kind :=
  let e := fresh "e" in
  intros e; destruct e; simpl; try congruence;
  match goal with what : freed |- _ => destruct what; simpl; congruence end.


Lemma count_cons p e (l : list event) :
  count p (e :: l) = ((if p e then 1 else 0) + count p l)%nat.
Proof. unfold count. simpl. destruct (p e); reflexivity. Qed.










(** ** Parameter update *)

Lemma update_htsvoice_path_current w g :
  exists tr g',
    update_htsvoice_path w g = (EvUpdateHtsvoicePath :: tr, Ret (tt, g')) /\
    forallb selection_event tr = true /\
    count is_getvoice tr = 0%nat /\
    same_configuration g g' /\
    openjtalk_msg_language g' = openjtalk_msg_language g /\
    openjtalk_msg_voice_str g' = openjtalk_msg_voice_str g /\
    path_is_current w g'.
Proof.
  destruct (update_htsvoice_path_run w g)
    as (tr & g' & Hrun & Hv & Hl & Hp & Hd & Hs & Ho & Hpath).
  exists tr, g'. split; [exact Hrun|].
  pose proof (update_htsvoice_path_emits w g) as Hsel. rewrite Hrun in Hsel.
  simpl in Hsel.
  assert (Hget : count is_getvoice tr = 0%nat).
  { clear - Hrun.
    unfold update_htsvoice_path, bind, emit, modify, get, DBG in Hrun.
    simpl in Hrun.
    destruct (openjtalk_msg_voice_str g) as [voice|].
    - set (g0 := set_htsvoice_path None g) in Hrun.
      assert (Hloop : forall paths s,
                 count is_getvoice (fst (update_htsvoice_path_loop w voice paths s))
                 = 0%nat).
      { induction paths as [|t rest IH]; intros s; simpl; [reflexivity|].
        unfold bind, emit, modify. simpl.
        destruct (g_file_test w (g_string_replace t "$VOICE" voice)); simpl.
        - reflexivity.
        - specialize (IH s).
          destruct (update_htsvoice_path_loop w voice rest s) as [t2 r2].
          simpl in *. rewrite count_cons. simpl. exact IH. }
      specialize (Hloop (voice_search_paths g) g0).
      destruct (update_htsvoice_path_loop w voice (voice_search_paths g) g0)
        as [t2 [[[] s2]|tp]]; simpl in *.
      + injection Hrun as <- _. exact Hloop.
      + discriminate.
    - simpl in Hrun. injection Hrun as <- _. reflexivity. }
  repeat split; auto.
  unfold path_is_current, resolved_path. rewrite Hpath, Hv, Hp. reflexivity.
Qed.

Lemma openjtalk_set_voice_run w voice g lang :
  openjtalk_msg_language g = Some lang ->
  exists tr g',
    openjtalk_set_voice w voice g = (tr, Ret (tt, g')) /\
    In EvUpdateHtsvoicePath tr /\
    same_configuration g g' /\
    openjtalk_msg_language g' = Some lang /\
    openjtalk_msg_voice_str g' = module_getvoice w lang voice /\
    path_is_current w g'.
Proof.
  intros Hlang.
  unfold openjtalk_set_voice, bind, DBG, emit, get, modify. simpl.
  rewrite Hlang. simpl.
  destruct (module_getvoice w lang voice) as [v|] eqn:Ev; simpl.
  - destruct (update_htsvoice_path_current w (set_msg_voice_str (Some v) g))
      as (tr & g' & Hrun & _ & _ & Hcfg & Hl & Hv & Hcur).
    rewrite Hrun. simpl.
    do 2 eexists. split; [reflexivity|].
    split; [simpl; tauto|].
    repeat split; try apply Hcfg; try (rewrite Hl; simpl; assumption); auto.
  - do 2 eexists. split; [reflexivity|].
    split; [simpl; tauto|].
    repeat split; simpl; auto.
Qed.

Lemma openjtalk_set_voice_assert w voice g :
  openjtalk_msg_language g = None ->
  openjtalk_set_voice w voice g = ([EvDbg "Setting voice type %d"], Trap AssertFail).
Proof.
  intros Hlang.
  unfold openjtalk_set_voice, bind, DBG, emit, get, raise. simpl.
  rewrite Hlang. reflexivity.
Qed.

Lemma openjtalk_set_language_run w lang g :
  exists tr g',
    openjtalk_set_language w lang g = (tr, Ret (tt, g')) /\
    In EvUpdateHtsvoicePath tr /\
    same_configuration g g' /\
    openjtalk_msg_language g' = Some lang /\
    openjtalk_msg_voice_str g' =
      module_getvoice w lang (voice_type (msg_settings g)) /\
    path_is_current w g'.
Proof.
  destruct (openjtalk_set_voice_run w (voice_type (msg_settings g))
              (set_msg_language (Some lang) g) lang eq_refl)
    as (tr & g' & Hrun & Hin & Hcfg & Hl & Hv & Hcur).
  unfold openjtalk_set_language, bind, DBG, emit, get, modify. simpl.
  change (msg_settings (set_msg_language (Some lang) g)) with (msg_settings g) in Hrun.
  rewrite Hrun. simpl.
  do 2 eexists. split; [reflexivity|].
  split; [simpl; tauto|].
  repeat split; try apply Hcfg; try (rewrite Hl; simpl; assumption); auto.
Qed.

Lemma openjtalk_set_synthesis_voice_run w name g n :
  voice_name (msg_settings g) = Some n ->
  (module_existsvoice w n = false /\
   openjtalk_set_synthesis_voice w name g =
     ([EvDbg "Setting voice name %s (%s)"; EvExistsvoice n false], Ret (tt, g))) \/
  (module_existsvoice w n = true /\
   exists tr g',
     openjtalk_set_synthesis_voice w name g = (tr, Ret (tt, g')) /\
     In EvUpdateHtsvoicePath tr /\
     count is_getvoice tr = 0%nat /\
     same_configuration g g' /\
     openjtalk_msg_language g' = openjtalk_msg_language g /\
     openjtalk_msg_voice_str g' = Some n /\
     path_is_current w g').
Proof.
  intros Hname.
  unfold openjtalk_set_synthesis_voice, bind, DBG, emit, get, modify. simpl.
  rewrite Hname.
  destruct (module_existsvoice w n) eqn:Ex; simpl.
  - right. split; [reflexivity|].
    destruct (update_htsvoice_path_current w (set_msg_voice_str (Some n) g))
      as (tr & g' & Hrun & _ & Hget & Hcfg & Hl & Hv & Hcur).
    rewrite Hrun. simpl.
    do 2 eexists. split; [reflexivity|].
    split; [simpl; tauto|].
    split; [rewrite !count_cons; simpl; exact Hget|].
    repeat split; try apply Hcfg; try (rewrite Hl; simpl; assumption); auto.
  - left. split; reflexivity.
Qed.

Lemma opt_string_eqb_eq a b : opt_string_eqb a b = true <-> a = b.
Proof.
  destruct a as [x|], b as [y|]; simpl; split; try congruence.
  - intros H. apply String.eqb_eq in H. congruence.
  - intros H. injection H as ->. apply String.eqb_refl.
Qed.

Lemma opt_string_eqb_neq a b : opt_string_eqb a b = false <-> a <> b.
Proof.
  split.
  - intros H Heq. apply opt_string_eqb_eq in Heq. congruence.
  - intros H. destruct (opt_string_eqb a b) eqn:E; [|reflexivity].
    apply opt_string_eqb_eq in E. contradiction.
Qed.

Lemma path_is_current_same w g g' :
  path_is_current w g ->
  same_voice g g' ->
  voice_search_paths g' = voice_search_paths g ->
  path_is_current w g'.
Proof.
  unfold path_is_current. intros H (Hv & _ & Hp) Hpaths.
  rewrite Hp, Hv, Hpaths. exact H.
Qed.

Lemma same_voice_refl g : same_voice g g.
Proof. repeat split. Qed.

Lemma same_voice_trans g1 g2 g3 :
  same_voice g1 g2 -> same_voice g2 g3 -> same_voice g1 g3.
Proof.
  intros (A1 & A2 & A3) (B1 & B2 & B3). repeat split; congruence.
Qed.

(** The update of the language. *)
Lemma language_step w g :
  exists tr g1 (ran : bool),
    UPDATE_STRING_PARAMETER voice_language set_old_language
      (openjtalk_set_language w) g = (tr, Ret (tt, g1)) /\
    (ran = true <-> language_changed g /\ language_set g) /\
    msg_settings g1 = msg_settings g /\
    voice_search_paths g1 = voice_search_paths g /\
    voice_type (msg_settings_old g1) = voice_type (msg_settings_old g) /\
    voice_name (msg_settings_old g1) = voice_name (msg_settings_old g) /\
    (ran = true ->
     In EvUpdateHtsvoicePath tr /\ path_is_current w g1 /\
     exists lang,
       openjtalk_msg_language g1 = Some lang /\
       openjtalk_msg_voice_str g1 =
         module_getvoice w lang (voice_type (msg_settings g))) /\
    (ran = false -> tr = [] /\ same_voice g g1).
Proof.
  unfold UPDATE_STRING_PARAMETER, language_changed, language_set.
  unfold bind at 1. unfold get at 1. cbv iota beta.
  destruct (opt_string_eqb (voice_language (msg_settings_old g))
              (voice_language (msg_settings g))) eqn:Eq; simpl.
  - apply opt_string_eqb_eq in Eq.
    exists [], g, false. split; [reflexivity|].
    split; [split; [discriminate | intros [H _]; congruence]|].
    repeat split; discriminate.
  - apply opt_string_eqb_neq in Eq.
    destruct (voice_language (msg_settings g)) as [lang|] eqn:El.
    + destruct (openjtalk_set_language_run w lang
                  (set_settings_old
                     (set_old_language (Some lang) (msg_settings_old g)) g))
        as (tr & g1 & Hrun & Hin & (Hp & Hd & Hs & Ho) & Hl & Hv & Hcur).
      exists tr, g1, true. unfold bind, modify. simpl. rewrite Hrun. simpl.
      split; [reflexivity|].
      split; [split; [intros _; split; congruence | reflexivity]|].
      simpl in *. rewrite Ho. simpl.
      repeat split; auto; try discriminate.
      exists lang. split; assumption.
    + exists [], (set_settings_old
                    (set_old_language None (msg_settings_old g)) g), false.
      unfold bind, modify, ret. simpl.
      split; [reflexivity|].
      split; [split; [discriminate | intros [_ H]; congruence]|].
      repeat split; discriminate.
Qed.

(** The update of the voice type. *)
Lemma voice_type_step w g :
  (voice_type_changed g /\ openjtalk_msg_language g = None /\
   UPDATE_PARAMETER voice_type set_old_voice_type (openjtalk_set_voice w) g =
     ([EvDbg "Setting voice type %d"], Trap AssertFail)) \/
  exists tr g1 (ran : bool),
    UPDATE_PARAMETER voice_type set_old_voice_type (openjtalk_set_voice w) g
      = (tr, Ret (tt, g1)) /\
    (ran = true <-> voice_type_changed g) /\
    msg_settings g1 = msg_settings g /\
    voice_search_paths g1 = voice_search_paths g /\
    voice_name (msg_settings_old g1) = voice_name (msg_settings_old g) /\
    (ran = true ->
     In EvUpdateHtsvoicePath tr /\ path_is_current w g1 /\
     exists lang,
       openjtalk_msg_language g = Some lang /\
       openjtalk_msg_language g1 = Some lang /\
       openjtalk_msg_voice_str g1 =
         module_getvoice w lang (voice_type (msg_settings g))) /\
    (ran = false -> tr = [] /\ same_voice g g1).
Proof.
  unfold UPDATE_PARAMETER, voice_type_changed.
  unfold bind at 1 3. unfold get at 1 2. cbv iota beta.
  destruct (Z.eqb_spec (voice_type (msg_settings_old g))
              (voice_type (msg_settings g))) as [Eq|Eq]; simpl.
  - right. exists [], g, false. split; [reflexivity|].
    split; [split; [discriminate | congruence]|].
    repeat split; discriminate.
  - destruct (openjtalk_msg_language g) as [lang|] eqn:El.
    + right.
      destruct (openjtalk_set_voice_run w (voice_type (msg_settings g))
                  (set_settings_old
                     (set_old_voice_type (voice_type (msg_settings g))
                        (msg_settings_old g)) g) lang El)
        as (tr & g1 & Hrun & Hin & (Hp & Hd & Hs & Ho) & Hl & Hv & Hcur).
      exists tr, g1, true. unfold bind, modify. simpl. rewrite Hrun. simpl.
      split; [reflexivity|].
      split; [split; [intros _; congruence | reflexivity]|].
      simpl in *. rewrite Ho. simpl.
      repeat split; auto; try discriminate.
      exists lang. repeat split; assumption.
    + left. split; [congruence|]. split; [reflexivity|].
      unfold bind, modify. simpl.
      rewrite openjtalk_set_voice_assert by exact El. reflexivity.
Qed.

(** The update of the explicit voice name. *)
Lemma voice_name_step w g :
  exists tr g1 (ran : bool),
    UPDATE_STRING_PARAMETER voice_name set_old_name
      (openjtalk_set_synthesis_voice w) g = (tr, Ret (tt, g1)) /\
    (ran = true <-> name_changed g /\ name_registered w g) /\
    msg_settings g1 = msg_settings g /\
    voice_search_paths g1 = voice_search_paths g /\
    count is_getvoice tr = 0%nat /\
    (ran = true ->
     In EvUpdateHtsvoicePath tr /\ path_is_current w g1 /\
     openjtalk_msg_voice_str g1 = voice_name (msg_settings g)) /\
    (ran = false -> count is_update_path tr = 0%nat /\ same_voice g g1).
Proof.
  unfold UPDATE_STRING_PARAMETER, name_changed, name_registered.
  unfold bind at 1. unfold get at 1. cbv iota beta.
  destruct (opt_string_eqb (voice_name (msg_settings_old g))
              (voice_name (msg_settings g))) eqn:Eq; simpl.
  - apply opt_string_eqb_eq in Eq.
    exists [], g, false. split; [reflexivity|].
    split; [split; [discriminate | intros [H _]; congruence]|].
    repeat split; discriminate.
  - apply opt_string_eqb_neq in Eq.
    destruct (voice_name (msg_settings g)) as [n|] eqn:En.
    + destruct (openjtalk_set_synthesis_voice_run w n
                  (set_settings_old
                     (set_old_name (Some n) (msg_settings_old g)) g) n)
        as [(Hex & Hrun)|(Hex & tr & g1 & Hrun & Hin & Hget & (Hp & Hd & Hs & Ho)
                          & Hl & Hv & Hcur)].
      * simpl. exact En.
      * eexists _, _, false. unfold bind, modify. simpl. rewrite Hrun. simpl.
        split; [reflexivity|].
        split; [split; [discriminate|]|].
        { intros (_ & n' & Hn' & Hreg). injection Hn' as <-. congruence. }
        repeat split; discriminate.
      * exists tr, g1, true. unfold bind, modify. simpl. rewrite Hrun. simpl.
        split; [reflexivity|].
        split; [split; [intros _; split; [congruence | eauto] | reflexivity]|].
        simpl in *.
        repeat split; auto; try discriminate.
    + exists [], (set_settings_old (set_old_name None (msg_settings_old g)) g), false.
      unfold bind, modify, ret. simpl.
      split; [reflexivity|].
      split; [split; [discriminate|]|].
      { intros (_ & n' & Hn' & _). discriminate. }
      repeat split; discriminate.
Qed.

(** The three updates in sequence. *)
Lemma update_parameters_steps w g tr r :
  update_parameters w g = (tr, r) ->
  exists tr1 g1 ran1,
    UPDATE_STRING_PARAMETER voice_language set_old_language
      (openjtalk_set_language w) g = (tr1, Ret (tt, g1)) /\
    (ran1 = true <-> language_changed g /\ language_set g) /\
    msg_settings g1 = msg_settings g /\
    voice_search_paths g1 = voice_search_paths g /\
    voice_type (msg_settings_old g1) = voice_type (msg_settings_old g) /\
    voice_name (msg_settings_old g1) = voice_name (msg_settings_old g) /\
    (ran1 = true ->
     In EvUpdateHtsvoicePath tr1 /\ path_is_current w g1 /\
     exists lang,
       openjtalk_msg_language g1 = Some lang /\
       openjtalk_msg_voice_str g1 =
         module_getvoice w lang (voice_type (msg_settings g))) /\
    (ran1 = false -> tr1 = [] /\ same_voice g g1) /\
    ((voice_type_changed g1 /\ openjtalk_msg_language g1 = None /\
      tr = tr1 ++ [EvDbg "Setting voice type %d"] /\ r = Trap AssertFail) \/
     exists tr2 g2 ran2 tr3 g3 ran3,
       tr = tr1 ++ tr2 ++ tr3 /\ r = Ret (tt, g3) /\
       (ran2 = true <-> voice_type_changed g1) /\
       msg_settings g2 = msg_settings g1 /\
       voice_search_paths g2 = voice_search_paths g1 /\
       voice_name (msg_settings_old g2) = voice_name (msg_settings_old g1) /\
       (ran2 = true ->
        In EvUpdateHtsvoicePath tr2 /\ path_is_current w g2 /\
        exists lang,
          openjtalk_msg_language g1 = Some lang /\
          openjtalk_msg_language g2 = Some lang /\
          openjtalk_msg_voice_str g2 =
            module_getvoice w lang (voice_type (msg_settings g1))) /\
       (ran2 = false -> tr2 = [] /\ same_voice g1 g2) /\
       (ran3 = true <-> name_changed g2 /\ name_registered w g2) /\
       msg_settings g3 = msg_settings g2 /\
       voice_search_paths g3 = voice_search_paths g2 /\
       count is_getvoice tr3 = 0%nat /\
       (ran3 = true ->
        In EvUpdateHtsvoicePath tr3 /\ path_is_current w g3 /\
        openjtalk_msg_voice_str g3 = voice_name (msg_settings g2)) /\
       (ran3 = false -> count is_update_path tr3 = 0%nat /\ same_voice g2 g3)).
Proof.
  intros Hrun. unfold update_parameters in Hrun.
  destruct (language_step w g)
    as (tr1 & g1 & ran1 & H1 & Hran1 & Hs1 & Hp1 & Ht1 & Hn1 & Hyes1 & Hno1).
  exists tr1, g1, ran1.
  do 8 (split; [assumption|]).
  unfold bind at 1 in Hrun. rewrite H1 in Hrun.
  destruct (voice_type_step w g1)
    as [(Hch & Hnone & H2)
       |(tr2 & g2 & ran2 & H2 & Hran2 & Hs2 & Hp2 & Hn2 & Hyes2 & Hno2)].
  - left. unfold bind at 1 in Hrun. rewrite H2 in Hrun.
    injection Hrun as <- <-. auto.
  - right. unfold bind at 1 in Hrun. rewrite H2 in Hrun.
    destruct (voice_name_step w g2)
      as (tr3 & g3 & ran3 & H3 & Hran3 & Hs3 & Hp3 & Hg3 & Hyes3 & Hno3).
    rewrite H3 in Hrun. injection Hrun as <- <-.
    exists tr2, g2, ran2, tr3, g3, ran3.
    repeat (split; [first [reflexivity | assumption]|]). assumption.
Qed.

(** C7 fails as stated: after a request that named the registered voice
    [male1], a request that differs only in naming a voice that is not
    registered changes the selection, yet the parameter update does not
    run [update_htsvoice_path], and the engine is started with the path of
    the previous selection. *)
Lemma C7_counterexample :
  snd (update_parameters w_ok (set_msg_settings settings_named g_init))
    = Ret (tt, g_named) /\
  name_changed (set_msg_settings settings_renamed g_named) /\
  count is_update_path
    (fst (update_parameters w_ok (set_msg_settings settings_renamed g_named)))
    = 0%nat /\
  (exists g2,
     snd (update_parameters w_ok (set_msg_settings settings_renamed g_named))
       = Ret (tt, g2) /\
     msg_settings_old g2 = settings_renamed /\
     openjtalk_htsvoice_path g2 = Some "/voices/male1.htsvoice") /\
  In (EvPopen
        "open_jtalk -x /var/lib/mecab/dic/open-jtalk -m /voices/male1.htsvoice -ow /tmp/speechd-openjtalk-a1b2c3"
        true)
    (fst (module_speak_sync w_ok "hello"
            (set_msg_settings settings_renamed g_named))).
Proof.
  split; [vm_compute; reflexivity|].
  split; [unfold name_changed; simpl; discriminate|].
  split; [vm_compute; reflexivity|].
  split.
  - eexists. split; [lazy; reflexivity|]. split; reflexivity.
  - vm_compute. tauto.
Qed.


Lemma path_trace_no_lookup w g p :
  path_taken w g p -> count is_getvoice (path_trace p) = 0%nat.
Proof.
  intros Htaken.
  pose proof (path_reader_events w g p Htaken) as Hreader.
  destruct p; simpl app;
    unfold path_trace, started_trace, engine_trace, fp_finish_trace,
      template_finish_trace, finish_trace;
    repeat first [rewrite count_cons | rewrite count_app];
    repeat match goal with
      | Hl : forallb ?P ?l = true |- context [count ?p ?l] =>
          rewrite (count_zero p P l Hl) by not_of_kind
      end;
    reflexivity.
Qed.

(** C9. When the language is unset, [openjtalk_set_voice] stops at its
    assertion before [module_getvoice] is called: the run is the log entry
    followed by the failed assertion, and no lookup of a voice identifier
    from language and voice type occurs.  The same holds for a whole speak
    request whose settings carry no language. *)
Theorem C9_unset_language_no_lookup w voice g :
  openjtalk_msg_language g = None ->
  openjtalk_set_voice w voice g =
    ([EvDbg "Setting voice type %d"], Trap AssertFail) /\
  count is_getvoice (fst (openjtalk_set_voice w voice g)) = 0%nat /\
  (forall data,
     voice_language (msg_settings g) = None ->
     count is_getvoice (fst (module_speak_sync w data g)) = 0%nat).
Proof.
  intros Hnone.
  pose proof (openjtalk_set_voice_assert w voice g Hnone) as Hrun.
  split; [exact Hrun|]. split; [rewrite Hrun; reflexivity|].
  intros data Hlang.
  assert (Hupd0 : forall tr0 r,
             update_parameters w g = (tr0, r) -> count is_getvoice tr0 = 0%nat).
  { intros tr0 r Hupd.
    destruct (update_parameters_steps w g tr0 r Hupd)
      as (tr1 & g1 & ran1 & H1 & Hran1 & Hs1 & Hp1 & Ht1 & Hn1 & Hyes1 & Hno1 & Hrest).
    assert (E1 : ran1 = false).
    { destruct ran1; [|reflexivity]. exfalso.
      destruct (proj1 Hran1 eq_refl) as (_ & Hset). contradiction. }
    destruct (Hno1 E1) as (-> & (_ & Hl1 & _)).
    destruct Hrest
      as [(_ & _ & -> & _)
         |(tr2 & g2 & ran2 & tr3 & g3 & ran3 & -> & Hr & Hran2 & Hs2 & Hp2 & Hn2
           & Hyes2 & Hno2 & Hran3 & Hs3 & Hp3 & Hg3 & _)].
    - reflexivity.
    - assert (E2 : ran2 = false).
      { destruct ran2; [|reflexivity]. exfalso.
        destruct (Hyes2 eq_refl) as (_ & _ & lang & Hl2 & _). congruence. }
      destruct (Hno2 E2) as (-> & _). simpl. exact Hg3. }
  destruct (module_speak_sync_cases w data g)
    as (tr0 & Hsel & [(t & Hupd & E)|(g1 & p & Hupd & Htaken & E)]);
    rewrite E; simpl fst.
  - rewrite count_cons. simpl. exact (Hupd0 _ _ Hupd).
  - rewrite count_cons, count_app, (Hupd0 _ _ Hupd).
    rewrite (path_trace_no_lookup w g1 p Htaken). reflexivity.
Qed.

Lemma C9_unset_language_no_lookup_witness :
  openjtalk_msg_language g_init = None /\
  openjtalk_set_voice w_ok 4 g_init =
    ([EvDbg "Setting voice type %d"], Trap AssertFail) /\
  count is_getvoice
    (fst (module_speak_sync w_ok "hello" (set_msg_settings settings_unset g_init)))
    = 0%nat.
Proof.
  split; [reflexivity|].
  split.
  - apply (C9_unset_language_no_lookup w_ok 4 g_init). reflexivity.
  - apply (C9_unset_language_no_lookup w_ok 4
             (set_msg_settings settings_unset g_init)); reflexivity.
Defined.

(** * Further properties *)

(** ** Wav reader *)

Lemma bytes_at_app f extra off n :
  0 <= off -> 0 <= n -> off + n <= file_size f ->
  bytes_at (f ++ extra) off n = bytes_at f off n.
Proof.
  intros Hoff Hn Hlen. unfold bytes_at, file_size in *.
  rewrite skipn_app, firstn_app.
  replace (Z.to_nat n - List.length (skipn (Z.to_nat off) f))%nat with 0%nat
    by (rewrite length_skipn; lia).
  simpl. apply app_nil_r.
Qed.

Lemma file_size_app f extra : file_size f <= file_size (f ++ extra).
Proof. unfold file_size. rewrite length_app. lia. Qed.

Lemma header_app f extra :
  44 <= file_size f ->
  header_bits (f ++ extra) = header_bits f /\
  header_channels (f ++ extra) = header_channels f /\
  header_sample_rate (f ++ extra) = header_sample_rate f /\
  header_size (f ++ extra) = header_size f /\
  header_samples (f ++ extra) = header_samples f /\
  block_size (f ++ extra) = block_size f.
Proof.
  intros Hlen.
  assert (Hb : header_bits (f ++ extra) = header_bits f).
  { unfold header_bits. rewrite bytes_at_app by lia. reflexivity. }
  assert (Hc : header_channels (f ++ extra) = header_channels f).
  { unfold header_channels. rewrite bytes_at_app by lia. reflexivity. }
  assert (Hr : header_sample_rate (f ++ extra) = header_sample_rate f).
  { unfold header_sample_rate. rewrite bytes_at_app by lia. reflexivity. }
  assert (Hs : header_size (f ++ extra) = header_size f).
  { unfold header_size. rewrite bytes_at_app by lia. reflexivity. }
  assert (Hn : header_samples (f ++ extra) = header_samples f).
  { unfold header_samples. rewrite Hb, Hc, Hs. reflexivity. }
  repeat split; auto.
  unfold block_size. rewrite Hb, Hc, Hn. reflexivity.
Qed.

(** X1. The reader looks at the 44 bytes of the header and at the sample
    block only: bytes that follow the block of a file on which the
    extraction succeeds change neither the calls it makes nor the track it
    returns. *)
Theorem extract_ignores_trailing_bytes f extra tr track fp' :
  extract (open_file f) = (tr, Ret (inr track, fp')) ->
  exists fp'', extract (open_file (f ++ extra)) = (tr, Ret (inr track, fp'')).
Proof.
  intros H.
  destruct (extract_success_inv f tr track fp' H)
    as (Hlen & Hc & Hb & Hblk & -> & ->).
  destruct (header_app f extra Hlen) as (Eb & Ec & Er & Es & En & Ek).
  pose proof (file_size_app f extra) as Hsize.
  pose proof (samples_times_channels f Hc Hb) as (_ & _ & _ & _ & Hle).
  destruct (extract_ok (f ++ extra)) as [fp'' Hrun]; try (rewrite ?Eb, ?Ec, ?Ek; lia).
  exists fp''. rewrite Hrun.
  unfold block_trace, track_of.
  rewrite Eb, Ec, Er, En, Ek.
  rewrite (bytes_at_app f extra 44 (block_size f)) by lia.
  reflexivity.
Qed.

Lemma extract_ignores_trailing_bytes_witness :
  exists tr track fp' fp'',
    extract (open_file wav_stereo16) = (tr, Ret (inr track, fp')) /\
    extract (open_file (wav_stereo16 ++ [x4c; x49; x53; x54]))
      = (tr, Ret (inr track, fp'')).
Proof.
  destruct (extract (open_file wav_stereo16)) as [tr [[[step|track] fp']|t]] eqn:E;
    [vm_compute in E; discriminate E | | vm_compute in E; discriminate E].
  destruct (extract_ignores_trailing_bytes wav_stereo16 [x4c; x49; x53; x54]
              tr track fp' E) as [fp'' H].
  exists tr, track, fp', fp''. split; [reflexivity | exact H].
Defined.

Lemma frame_remainder s c k :
  0 <= s -> 1 <= c -> 1 <= k ->
  0 <= s - s / c / k * c * k < c * k.
Proof.
  intros Hs Hc Hk.
  pose proof (Z.div_mod s c ltac:(lia)) as E1.
  pose proof (Z.mod_pos_bound s c ltac:(lia)) as B1.
  pose proof (Z.div_mod (s / c) k ltac:(lia)) as E2.
  pose proof (Z.mod_pos_bound (s / c) k ltac:(lia)) as B2.
  set (q := s / c / k) in *. set (r2 := (s / c) mod k) in *.
  set (r1 := s mod c) in *. set (q1 := s / c) in *.
  assert (E : s - q * c * k = c * r2 + r1) by nia.
  rewrite E. split; nia.
Qed.

(** X2. A successful extraction reads whole sample frames only: the bytes
    read never exceed the data byte length of the header, and fewer than
    one frame of [num_channels * (bits / 8)] bytes of it is left unread. *)
Theorem extract_reads_whole_frames f tr track fp' :
  extract (open_file f) = (tr, Ret (inr track, fp')) ->
  exists buf,
    samples track = Some buf /\
    Z.of_nat (List.length (buf_data buf)) <= header_size f /\
    header_size f - Z.of_nat (List.length (buf_data buf))
      < num_channels track * (bits track / 8).
Proof.
  intros H.
  destruct (extract_success_inv f tr track fp' H)
    as (Hlen & Hc & Hb & Hblk & -> & ->).
  pose proof (samples_times_channels f Hc Hb) as (_ & _ & _ & Hk & _).
  pose proof (header_fields_range f) as (_ & _ & _ & Hs).
  eexists. split; [reflexivity|].
  cbn [buf_data track_of num_channels bits].
  rewrite (block_length f Hc Hb Hblk).
  pose proof (frame_remainder (header_size f) (header_channels f)
                (header_bits f / 8) ltac:(lia) Hc Hk) as Hrem.
  unfold block_size, header_samples. lia.
Qed.

Lemma extract_reads_whole_frames_witness :
  exists tr track fp' buf,
    extract (open_file wav_mono12) = (tr, Ret (inr track, fp')) /\
    samples track = Some buf /\
    Z.of_nat (List.length (buf_data buf)) <= header_size wav_mono12.
Proof.
  destruct (extract (open_file wav_mono12)) as [tr [[[step|track] fp']|t]] eqn:E;
    [vm_compute in E; discriminate E | | vm_compute in E; discriminate E].
  destruct (extract_reads_whole_frames wav_mono12 tr track fp' E)
    as (buf & Hs & Hle & _).
  exists tr, track, fp', buf. repeat split; assumption.
Defined.

(** X3. When [num_samples * num_channels * bits] does not wrap around 32
    bits, the bytes that a successful extraction stored in the buffer fit in
    the size that was allocated for it, for every bit depth. *)
Theorem extract_buffer_large_enough f tr track fp' :
  extract (open_file f) = (tr, Ret (inr track, fp')) ->
  num_samples track * num_channels track * bits track < 2 ^ 32 ->
  exists buf,
    samples track = Some buf /\
    Z.of_nat (List.length (buf_data buf)) <= buf_size buf.
Proof.
  intros H Hlt.
  destruct (extract_success_inv f tr track fp' H)
    as (Hlen & Hc & Hb & Hblk & -> & ->).
  pose proof (samples_times_channels f Hc Hb) as (Hs0 & Hsc0 & Hsc & Hk & Hle).
  pose proof (header_fields_range f) as (Rb & Rc & _ & Rs).
  cbn [track_of num_samples num_channels bits] in Hlt.
  eexists. split; [reflexivity|].
  cbn [buf_data buf_size].
  rewrite (block_length f Hc Hb Hblk).
  rewrite (uint32_small (header_samples f * header_channels f)) by lia.
  rewrite uint32_small by nia.
  unfold block_size.
  apply Z.div_le_lower_bound; [lia|].
  pose proof (Z.mul_div_le (header_bits f) 8 ltac:(lia)) as H8.
  set (n := header_samples f * header_channels f) in *.
  nia.
Qed.

Lemma extract_buffer_large_enough_witness :
  exists tr track fp' buf,
    extract (open_file wav_mono12) = (tr, Ret (inr track, fp')) /\
    samples track = Some buf /\
    Z.of_nat (List.length (buf_data buf)) <= buf_size buf.
Proof.
  destruct (extract (open_file wav_mono12)) as [tr [[[step|track] fp']|t]] eqn:E;
    [vm_compute in E; discriminate E | | vm_compute in E; discriminate E].
  destruct (extract_buffer_large_enough wav_mono12 tr track fp' E)
    as (buf & Hs & Hle).
  - vm_compute in E. injection E as _ <- _. vm_compute. reflexivity.
  - exists tr, track, fp', buf. repeat split; assumption.
Defined.

Ltac in_literal H :=
  simpl in H;
  repeat match type of H with
    | _ \/ _ => destruct H as [H|H]; [try discriminate H|]
    | False => destruct H
    end.

(** X4. Whatever the file holds, the reader seeks only to the five fixed
    offsets, reads at most five times, and allocates at most once, and
    that only after the four header fields were read completely and with a
    channel count and a byte width other than zero. *)
Theorem extract_calls_bounded f :
  (forall off, In (EvFseek off) (fst (extract (open_file f))) ->
               In off [34; 22; 24; 40; 44]) /\
  (count is_fread (fst (extract (open_file f))) <= 5)%nat /\
  (count is_malloc (fst (extract (open_file f))) <= 1)%nat /\
  (forall size, In (EvMalloc size) (fst (extract (open_file f))) ->
                44 <= file_size f /\ 1 <= header_channels f /\
                8 <= header_bits f).
Proof.
  destruct (extract_cases f)
    as [(Hlen & ret & fp0 & E & Hret)
       |[(Hlen & ret & fp0 & E & Hret)
       |[(Hlen & Hz & E)
       |[(Hlen & Hc & Hb & Hblk & ret & fp0 & E & Hret)
       |(Hlen & Hc & Hb & Hblk & fp0 & E)]]]];
    rewrite E; simpl fst.
  - split; [intros off H; in_literal H; injection H as <-; simpl; tauto|].
    split; [unfold count; simpl; lia|]. split; [unfold count; simpl; lia|].
    intros size H. in_literal H.
  - split; [intros off H; in_literal H; injection H as <-; simpl; tauto|].
    split; [unfold count; simpl; lia|]. split; [unfold count; simpl; lia|].
    intros size H. in_literal H.
  - split; [intros off H; in_literal H; injection H as <-; simpl; tauto|].
    split; [unfold count; simpl; lia|]. split; [unfold count; simpl; lia|].
    intros size H. in_literal H.
  - split; [intros off H; in_literal H; injection H as <-; simpl; tauto|].
    split; [unfold count; simpl; lia|]. split; [unfold count; simpl; lia|].
    intros size H. auto.
  - split; [intros off H; in_literal H; injection H as <-; simpl; tauto|].
    split; [unfold count; simpl; lia|]. split; [unfold count; simpl; lia|].
    intros size H. auto.
Qed.

(** ** Speak request *)

(** Allocations and releases of the sample buffer inside the reader. *)
Lemma reader_counts f reader r :
  extract (open_file f) = (reader, r) ->
  match r with
  | Ret (inl _, _) => count is_malloc reader = count is_free_samples reader
  | Ret (inr _, _) =>
      count is_malloc reader = 1%nat /\ count is_free_samples reader = 0%nat
  | Trap _ =>
      count is_malloc reader = 0%nat /\ count is_free_samples reader = 0%nat
  end.
Proof.
  intros Hrun.
  destruct (extract_cases f)
    as [(Hlen & ret & fp0 & E & Hret)
       |[(Hlen & ret & fp0 & E & Hret)
       |[(Hlen & Hz & E)
       |[(Hlen & Hc & Hb & Hblk & ret & fp0 & E & Hret)
       |(Hlen & Hc & Hb & Hblk & fp0 & E)]]]];
    rewrite E in Hrun; injection Hrun as <- <-; try split; reflexivity.
Qed.

Ltac count_both Hsel :=
  unfold path_trace, started_trace, engine_trace, fp_finish_trace,
    template_finish_trace, finish_trace;
  repeat first [rewrite count_cons | rewrite count_app];
  repeat rewrite (count_zero _ _ _ Hsel) by not_of_kind;
  repeat match goal with
    | Hl : forallb ?P ?l = true |- context [count ?p ?l] =>
        rewrite (count_zero p P l Hl) by not_of_kind
    end;
  unfold count in *; simpl; try lia.

(** X5. A speak request that returns has released what it acquired: the
    descriptor of every temporary file is closed and the file unlinked,
    every command line is freed, every started engine is waited for, every
    opened output file is closed, every sample buffer is freed, and the
    stripped text is freed whenever the request was accepted. *)
Theorem speak_request_releases w data g tr g' :
  module_speak_sync w data g = (tr, Ret (tt, g')) ->
  count is_mkstemp_ok tr = count is_close tr /\
  count is_mkstemp_ok tr = count is_unlink tr /\
  count is_asprintf_ok tr = count is_free_cmd tr /\
  count is_popen_ok tr = count is_pclose tr /\
  count is_fopen_ok tr = count is_fclose tr /\
  count is_malloc tr = count is_free_samples tr /\
  count is_speak_ok tr = count is_free_plain_data tr.
Proof.
  intros Hrun.
  destruct (module_speak_sync_cases w data g)
    as (tr0 & Hsel & [(t & _ & E)|(g1 & p & _ & Htaken & E)]);
    rewrite E in Hrun; [discriminate|].
  injection Hrun as <- Hres.
  pose proof (path_reader_events w g1 p Htaken) as Hreader.
  destruct p; simpl in Hres; try discriminate.
  - repeat split; count_both Hsel.
  - repeat split; count_both Hsel.
  - repeat split; count_both Hsel.
  - repeat split; count_both Hsel.
  - repeat split; count_both Hsel.
  - repeat split; count_both Hsel.
  - destruct Htaken as (_ & _ & _ & _ & _ & content & fp' & _ & Ex).
    pose proof (reader_counts content reader _ Ex) as Hbal. simpl in Hbal.
    repeat split; count_both Hsel.
  - destruct Htaken as (_ & _ & _ & _ & _ & content & fp' & _ & Ex).
    pose proof (reader_counts content reader _ Ex) as [Hm Hf]. simpl in Hm, Hf.
    repeat split; count_both Hsel.
Qed.

Lemma speak_request_releases_witness :
  count is_malloc (fst (module_speak_sync w_ok "hello" g_init)) = 1%nat /\
  count is_free_samples (fst (module_speak_sync w_ok "hello" g_init)) = 1%nat /\
  count is_fclose
    (fst (module_speak_sync (with_fopen (Some wav_truncated) w_ok) "hello" g_init))
    = 1%nat.
Proof.
  split; [| split].
  - vm_compute. reflexivity.
  - destruct (module_speak_sync w_ok "hello" g_init) as [tr [[[] g']|t]] eqn:E;
      [| vm_compute in E; discriminate E].
    destruct (speak_request_releases w_ok "hello" g_init tr g' E)
      as (_ & _ & _ & _ & _ & Hbal & _).
    simpl fst. rewrite <- Hbal.
    vm_compute in E. injection E as <- _. vm_compute. reflexivity.
  - destruct (module_speak_sync (with_fopen (Some wav_truncated) w_ok) "hello" g_init)
      as [tr [[[] g']|t]] eqn:E; [| vm_compute in E; discriminate E].
    destruct (speak_request_releases _ _ _ tr g' E)
      as (_ & _ & _ & _ & Hbal & _).
    simpl fst. rewrite <- Hbal.
    vm_compute in E. injection E as <- _. vm_compute. reflexivity.
Defined.

(** X6. A speak request answers the framework exactly once when its
    parameter update returns: with [module_speak_ok] when a voice path is
    resolved, with [module_speak_error] otherwise, and with nothing when
    the update stops at an assertion.  A request that returns has sent as
    many begin reports and as many end reports as [module_speak_ok]. *)
Theorem speak_request_replies_once w data g tr r :
  module_speak_sync w data g = (tr, r) ->
  (forall tr0 t,
     update_parameters w g = (tr0, Trap t) ->
     count is_speak_ok tr = 0%nat /\ count is_speak_error tr = 0%nat) /\
  (forall tr0 g1,
     update_parameters w g = (tr0, Ret (tt, g1)) ->
     (count is_speak_ok tr + count is_speak_error tr = 1)%nat /\
     (count is_speak_ok tr = 1%nat <-> openjtalk_htsvoice_path g1 <> None)) /\
  (forall g',
     r = Ret (tt, g') ->
     count is_report_begin tr = count is_speak_ok tr /\
     count is_report_end tr = count is_speak_ok tr).
Proof.
  intros Hrun.
  destruct (module_speak_sync_cases w data g)
    as (tr0 & Hsel & [(t & Hupd & E)|(g1 & p & Hupd & Htaken & E)]);
    rewrite E in Hrun; injection Hrun as <- <-.
  - split; [| split].
    + intros tr1 t1 _. split; rewrite count_cons;
        rewrite (count_zero _ _ _ Hsel) by not_of_kind; reflexivity.
    + intros tr1 g1 H. rewrite Hupd in H. discriminate.
    + intros g' H. discriminate.
  - pose proof (path_reader_events w g1 p Htaken) as Hreader.
    split; [| split].
    + intros tr1 t1 H. rewrite Hupd in H. discriminate.
    + intros tr1 g2 H. rewrite Hupd in H. injection H as <- <-.
      destruct p; simpl in Htaken;
        [ split; [count_both Hsel|];
          split; [intros H; exfalso; revert H; count_both Hsel
                 | intros Hne; contradiction]
        | destruct Htaken as (Hsome & _); split; [count_both Hsel|];
          split; [intros _; exact Hsome | intros _; count_both Hsel] .. ].
    + intros g' Hres.
      destruct p; simpl in Hres; try discriminate; split; count_both Hsel.
Qed.

Lemma speak_request_replies_once_witness :
  (count is_speak_ok (fst (module_speak_sync w_ok "hello" g_init))
   + count is_speak_error (fst (module_speak_sync w_ok "hello" g_init)) = 1)%nat /\
  count is_report_end (fst (module_speak_sync w_ok "hello" g_init)) = 1%nat.
Proof.
  destruct (speak_request_replies_once w_ok "hello" g_init
              (fst (module_speak_sync w_ok "hello" g_init))
              (snd (module_speak_sync w_ok "hello" g_init)))
    as (_ & Hreply & Hreports).
  - destruct (module_speak_sync w_ok "hello" g_init); reflexivity.
  - destruct (update_parameters w_ok g_init) as [tr0 [[[] g1]|t]] eqn:E;
      [| vm_compute in E; discriminate E].
    destruct (Hreply tr0 g1 eq_refl) as (Hone & Hok).
    split; [exact Hone|].
    destruct (module_speak_sync w_ok "hello" g_init) as [tr [[[] g']|t]] eqn:E';
      [| vm_compute in E'; discriminate E'].
    destruct (Hreports g' eq_refl) as (_ & Hend).
    simpl fst in *. rewrite Hend. apply Hok.
    vm_compute in E. injection E as _ <-. discriminate.
Defined.

(** X7. The accepted request, end to end.  When the voice path is
    resolved, the temporary file and the command line are made, the engine
    starts and exits with 0, and the file it wrote is well formed, the
    request runs the engine on the command line built from the dictionary
    directory, the resolved path and the temporary file, feeds it the text
    with the markup stripped, and hands to playback, once and as
    little-endian, the track with the fields of the header and the sample
    block of the file; it then frees the buffer, closes and unlinks the
    file, reports the end and returns, leaving the module as the parameter
    update left it. *)
Theorem speak_request_delivers w data g tr0 g1 path template content :
  update_parameters w g = (tr0, Ret (tt, g1)) ->
  openjtalk_htsvoice_path g1 = Some path ->
  mkstemp w "/tmp/speechd-openjtalk-XXXXXX" = Some template ->
  asprintf_ok w = true ->
  popen_ok w (command_line (OpenjtalkDictionaryDirectory g1) path template) = true ->
  pclose_status w (command_line (OpenjtalkDictionaryDirectory g1) path template)
    (module_strip_ssml w data) = 0 ->
  fopen w template = Some content ->
  well_formed content ->
  module_speak_sync w data g =
    (EvDbg "speaking '%s'" :: tr0
       ++ [EvSpeakOk; EvReportEventBegin; EvUmask 63;
           EvMkstemp (Some template); EvClose;
           EvAsprintf
             (Some (command_line (OpenjtalkDictionaryDirectory g1) path template));
           EvDbg "executing: %s";
           EvPopen (command_line (OpenjtalkDictionaryDirectory g1) path template) true;
           EvFree FreedCmd;
           EvFprintf (module_strip_ssml w data);
           EvPclose 0;
           EvDbg "output to %s"; EvFopen template true; EvDbg "opened wav file"]
       ++ fst (extract (open_file content))
       ++ [EvTtsOutput (track_of content) SPD_AUDIO_LE;
           EvDbg "output finished"; EvFree FreedSamples;
           EvFclose; EvUnlink template; EvFree FreedPlainData;
           EvReportEventEnd; EvDbg "done"],
     Ret (tt, g1)).
Proof.
  intros Hupd Hpath Htmp Hasp Hpopen Hstatus Hopen Hwf.
  destruct (well_formed_block content Hwf) as (Hlen & Hc & Hb & Hblk).
  destruct (extract_ok content Hlen Hc Hb Hblk) as [fp' Hex].
  unfold module_speak_sync.
  unfold bind at 1. unfold DBG at 1, emit at 1. cbv iota beta.
  unfold bind at 1. rewrite Hupd.
  unfold module_speak_sync_body.
  unfold bind at 1. unfold get at 1. cbv iota beta.
  rewrite Hpath.
  unfold command_line in *. simpl in Hpopen, Hstatus.
  unfold bind, emit, DBG, FP_FINISH, TEMPLATE_FINISH, FINISH. simpl.
  rewrite Htmp, Hasp. simpl.
  rewrite Hpopen. simpl. rewrite Hstatus. simpl. rewrite Hopen. simpl.
  rewrite on_file_run. fold (open_file content). rewrite Hex. simpl.
  rewrite <- ?app_assoc. reflexivity.
Qed.

Lemma speak_request_delivers_witness :
  exists tr0 g1,
    update_parameters w_ok g_init = (tr0, Ret (tt, g1)) /\
    In (EvTtsOutput (track_of wav_stereo16) SPD_AUDIO_LE)
      (fst (module_speak_sync w_ok "hello" g_init)) /\
    snd (module_speak_sync w_ok "hello" g_init) = Ret (tt, g1).
Proof.
  destruct (update_parameters w_ok g_init) as [tr0 [[[] g1]|t]] eqn:E;
    [| vm_compute in E; discriminate E].
  assert (Hg1 : openjtalk_htsvoice_path g1 = Some "/voices/female1.htsvoice"
                /\ OpenjtalkDictionaryDirectory g1 = "/var/lib/mecab/dic/open-jtalk").
  { vm_compute in E. injection E as _ <-. split; reflexivity. }
  destruct Hg1 as (Hpath & Hdict).
  exists tr0, g1. split; [reflexivity|].
  rewrite (speak_request_delivers w_ok "hello" g_init tr0 g1
             "/voices/female1.htsvoice" "/tmp/speechd-openjtalk-a1b2c3"
             wav_stereo16 E Hpath eq_refl eq_refl eq_refl eq_refl eq_refl).
  - split; [|reflexivity].
    simpl fst. right. apply in_or_app. right.
    simpl. repeat (first [left; reflexivity | right]).
  - repeat split; apply Z.leb_le; vm_compute; reflexivity.
Defined.

(** The only trap of the reader is the division by zero. *)
Lemma extract_trap_inv f tr t :
  extract (open_file f) = (tr, Trap t) ->
  t = DivByZero /\ tr = header_trace /\ 44 <= file_size f /\
  (header_channels f = 0 \/ header_bits f < 8).
Proof.
  intros H.
  destruct (extract_cases f)
    as [(_ & ret & fp0 & E & _)
       |[(_ & ret & fp0 & E & _)
       |[(Hlen & Hz & E)
       |[(_ & _ & _ & _ & ret & fp0 & E & _)
       |(_ & _ & _ & _ & fp0 & E)]]]];
    rewrite E in H; try discriminate.
  injection H as <- <-. auto.
Qed.

(** The only trap of the parameter update is the assertion of
    [openjtalk_set_voice]. *)
Lemma update_parameters_trap_inv w g tr t :
  update_parameters w g = (tr, Trap t) ->
  t = AssertFail /\ tr = [EvDbg "Setting voice type %d"] /\
  openjtalk_msg_language g = None /\ voice_type_changed g /\
  ~ (language_changed g /\ language_set g).
Proof.
  intros Hupd.
  destruct (update_parameters_steps w g tr _ Hupd)
    as (tr1 & g1 & ran1 & H1 & Hran1 & Hs1 & Hp1 & Ht1 & Hn1 & Hyes1 & Hno1
        & [(Hch & Hnone & -> & Hr)
          |(tr2 & g2 & ran2 & tr3 & g3 & ran3 & _ & Hr & _)]);
    [|discriminate].
  injection Hr as ->.
  destruct ran1.
  - destruct (Hyes1 eq_refl) as (_ & _ & lang & Hl & _). congruence.
  - destruct (Hno1 eq_refl) as (-> & (_ & Hl & _)).
    split; [reflexivity|]. split; [reflexivity|].
    split; [congruence|]. split.
    + unfold voice_type_changed in *. rewrite Hs1, Ht1 in Hch. exact Hch.
    + intros H. apply Hran1 in H. discriminate.
Qed.

(** X8. A speak request that stops at the division by zero of the reader
    has been accepted and has created and opened its temporary file, whose
    header has no channel or fewer than 8 bits; the file is not unlinked,
    the stream is not closed, nothing is handed to playback and no end is
    reported. *)
Theorem speak_request_division_trap w data g tr :
  module_speak_sync w data g = (tr, Trap DivByZero) ->
  exists template content,
    mkstemp w "/tmp/speechd-openjtalk-XXXXXX" = Some template /\
    fopen w template = Some content /\
    44 <= file_size content /\
    (header_channels content = 0 \/ header_bits content < 8) /\
    In (EvMkstemp (Some template)) tr /\
    In (EvFopen template true) tr /\
    count is_speak_ok tr = 1%nat /\
    count is_unlink tr = 0%nat /\
    count is_fclose tr = 0%nat /\
    count is_tts_output tr = 0%nat /\
    count is_report_end tr = 0%nat.
Proof.
  intros Hrun.
  destruct (module_speak_sync_cases w data g)
    as (tr0 & Hsel & [(t & Hupd & E)|(g1 & p & Hupd & Htaken & E)]);
    rewrite E in Hrun.
  - injection Hrun as _ ->.
    destruct (update_parameters_trap_inv w g tr0 _ Hupd) as (Ht & _). discriminate.
  - injection Hrun as <- Hres.
    pose proof (path_reader_events w g1 p Htaken) as Hreader.
    destruct p; simpl in Hres; try discriminate.
    injection Hres as ->.
    destruct Htaken as (_ & Htmp & _ & _ & _ & content & Hopen & Ex).
    destruct (extract_trap_inv content reader _ Ex) as (_ & _ & Hlen & Hz).
    exists template, content.
    do 4 (split; [assumption|]).
    split; [right; apply in_or_app; right; simpl; tauto|].
    split; [right; apply in_or_app; right; simpl; tauto|].
    repeat split; count_both Hsel.
Qed.

Lemma speak_request_division_trap_witness :
  snd (module_speak_sync (with_fopen (Some wav_no_channels) w_ok) "hello" g_init)
    = Trap DivByZero /\
  count is_unlink
    (fst (module_speak_sync (with_fopen (Some wav_no_channels) w_ok) "hello" g_init))
    = 0%nat.
Proof.
  destruct (module_speak_sync (with_fopen (Some wav_no_channels) w_ok) "hello" g_init)
    as [tr [[[] g']|[|]]] eqn:E;
    [vm_compute in E; discriminate E | vm_compute in E; discriminate E |].
  split; [reflexivity|].
  destruct (speak_request_division_trap _ _ _ tr E)
    as (template & content & _ & _ & _ & _ & _ & _ & _ & Hunlink & _).
  exact Hunlink.
Defined.

(** X9. A speak request stops at an assertion exactly when no language is
    held by the module, the settings do not bring a new one, and the voice
    type changed: [openjtalk_set_voice] is then called without a language,
    before any answer to the framework.  The assertion on the voice name
    never fails in a request. *)
Theorem speak_request_assertion w data g :
  (forall tr,
     module_speak_sync w data g = (tr, Trap AssertFail) ->
     openjtalk_msg_language g = None /\ voice_type_changed g /\
     ~ (language_changed g /\ language_set g) /\
     tr = [EvDbg "speaking '%s'"; EvDbg "Setting voice type %d"]) /\
  (openjtalk_msg_language g = None -> voice_type_changed g ->
   ~ (language_changed g /\ language_set g) ->
   module_speak_sync w data g =
     ([EvDbg "speaking '%s'"; EvDbg "Setting voice type %d"], Trap AssertFail)).
Proof.
  destruct (module_speak_sync_cases w data g)
    as (tr0 & Hsel & [(t & Hupd & E)|(g1 & p & Hupd & Htaken & E)]).
  - destruct (update_parameters_trap_inv w g tr0 t Hupd)
      as (-> & -> & Hl & Hch & Hnot).
    split.
    + intros tr Hrun. rewrite E in Hrun. injection Hrun as <-. auto.
    + intros _ _ _. exact E.
  - split.
    + intros tr Hrun. rewrite E in Hrun. injection Hrun as _ Hres.
      exfalso. destruct p; simpl in Hres; try discriminate.
      injection Hres as ->.
      destruct Htaken as (_ & _ & _ & _ & _ & content & _ & Ex).
      destruct (extract_trap_inv content reader _ Ex) as (Ht & _). discriminate.
    + intros Hl Hch Hnot. exfalso.
      destruct (update_parameters_steps w g tr0 _ Hupd)
        as (tr1 & g1' & ran1 & H1 & Hran1 & Hs1 & Hp1 & Ht1 & Hn1 & Hyes1 & Hno1
            & [(_ & _ & _ & Hr)
              |(tr2 & g2 & ran2 & tr3 & g3 & ran3 & _ & _ & Hran2 & _ & _ & _
                & Hyes2 & _)]);
        [discriminate|].
      assert (E1 : ran1 = false).
      { destruct ran1; [|reflexivity]. exfalso. apply Hnot. apply Hran1. reflexivity. }
      destruct (Hno1 E1) as (_ & (_ & Hl1 & _)).
      assert (E2 : ran2 = true).
      { apply Hran2. unfold voice_type_changed in *. rewrite Hs1, Ht1. exact Hch. }
      destruct (Hyes2 E2) as (_ & _ & lang & Hl2 & _). congruence.
Qed.

Lemma speak_request_assertion_witness :
  module_speak_sync w_ok "hello"
    (set_msg_settings
       {| voice_language := None; voice_type := 4; voice_name := None |} g_init)
  = ([EvDbg "speaking '%s'"; EvDbg "Setting voice type %d"], Trap AssertFail).
Proof.
  apply (speak_request_assertion w_ok "hello"
           (set_msg_settings
              {| voice_language := None; voice_type := 4; voice_name := None |}
              g_init)).
  - reflexivity.
  - unfold voice_type_changed. simpl. discriminate.
  - intros [_ H]. apply H. reflexivity.
Defined.

(** ** Parameter update *)

(** What each of the three updates keeps and what it remembers. *)
Lemma language_step_frame w g tr g1 :
  UPDATE_STRING_PARAMETER voice_language set_old_language
    (openjtalk_set_language w) g = (tr, Ret (tt, g1)) ->
  msg_settings g1 = msg_settings g /\
  voice_search_paths g1 = voice_search_paths g /\
  OpenjtalkDictionaryDirectory g1 = OpenjtalkDictionaryDirectory g /\
  voice_language (msg_settings_old g1) = voice_language (msg_settings g) /\
  voice_type (msg_settings_old g1) = voice_type (msg_settings_old g) /\
  voice_name (msg_settings_old g1) = voice_name (msg_settings_old g).
Proof.
  unfold UPDATE_STRING_PARAMETER.
  unfold bind at 1. unfold get at 1. cbv iota beta.
  destruct (opt_string_eqb (voice_language (msg_settings_old g))
              (voice_language (msg_settings g))) eqn:Eq; simpl.
  - apply opt_string_eqb_eq in Eq. intros H. injection H as _ <-.
    repeat split; auto.
  - destruct (voice_language (msg_settings g)) as [lang|] eqn:El.
    + destruct (openjtalk_set_language_run w lang
                  (set_settings_old
                     (set_old_language (Some lang) (msg_settings_old g)) g))
        as (tr' & g' & Hrun & _ & (Hp & Hd & Hs & Ho) & _).
      unfold bind, modify. simpl. rewrite Hrun. simpl.
      intros H. injection H as _ <-. simpl in *. rewrite Ho. simpl.
      repeat split; auto.
    + unfold bind, modify, ret. simpl. intros H. injection H as _ <-.
      repeat split; auto.
Qed.

Lemma voice_type_step_frame w g tr g1 :
  UPDATE_PARAMETER voice_type set_old_voice_type (openjtalk_set_voice w) g
    = (tr, Ret (tt, g1)) ->
  msg_settings g1 = msg_settings g /\
  voice_search_paths g1 = voice_search_paths g /\
  OpenjtalkDictionaryDirectory g1 = OpenjtalkDictionaryDirectory g /\
  voice_language (msg_settings_old g1) = voice_language (msg_settings_old g) /\
  voice_type (msg_settings_old g1) = voice_type (msg_settings g) /\
  voice_name (msg_settings_old g1) = voice_name (msg_settings_old g).
Proof.
  unfold UPDATE_PARAMETER.
  unfold bind at 1. unfold get at 1. cbv iota beta.
  destruct (Z.eqb_spec (voice_type (msg_settings_old g))
              (voice_type (msg_settings g))) as [Eq|Eq]; simpl.
  - intros H. injection H as _ <-. repeat split; auto.
  - destruct (openjtalk_msg_language g) as [lang|] eqn:El.
    + destruct (openjtalk_set_voice_run w (voice_type (msg_settings g))
                  (set_settings_old
                     (set_old_voice_type (voice_type (msg_settings g))
                        (msg_settings_old g)) g) lang El)
        as (tr' & g' & Hrun & _ & (Hp & Hd & Hs & Ho) & _).
      unfold bind, modify. simpl. rewrite Hrun. simpl.
      intros H. injection H as _ <-. simpl in *. rewrite Ho. simpl.
      repeat split; auto.
    + unfold bind, modify. simpl.
      rewrite openjtalk_set_voice_assert by exact El. discriminate.
Qed.

Lemma voice_name_step_frame w g tr g1 :
  UPDATE_STRING_PARAMETER voice_name set_old_name
    (openjtalk_set_synthesis_voice w) g = (tr, Ret (tt, g1)) ->
  msg_settings g1 = msg_settings g /\
  voice_search_paths g1 = voice_search_paths g /\
  OpenjtalkDictionaryDirectory g1 = OpenjtalkDictionaryDirectory g /\
  voice_language (msg_settings_old g1) = voice_language (msg_settings_old g) /\
  voice_type (msg_settings_old g1) = voice_type (msg_settings_old g) /\
  voice_name (msg_settings_old g1) = voice_name (msg_settings g).
Proof.
  unfold UPDATE_STRING_PARAMETER.
  unfold bind at 1. unfold get at 1. cbv iota beta.
  destruct (opt_string_eqb (voice_name (msg_settings_old g))
              (voice_name (msg_settings g))) eqn:Eq; simpl.
  - apply opt_string_eqb_eq in Eq. intros H. injection H as _ <-.
    repeat split; auto.
  - destruct (voice_name (msg_settings g)) as [n|] eqn:En.
    + destruct (openjtalk_set_synthesis_voice_run w n
                  (set_settings_old
                     (set_old_name (Some n) (msg_settings_old g)) g) n)
        as [(_ & Hrun)|(_ & tr' & g' & Hrun & _ & _ & (Hp & Hd & Hs & Ho) & _)].
      * simpl. exact En.
      * unfold bind, modify. simpl. rewrite Hrun. simpl.
        intros H. injection H as _ <-. simpl. repeat split; auto.
      * unfold bind, modify. simpl. rewrite Hrun. simpl.
        intros H. injection H as _ <-. simpl in *. rewrite Ho. simpl.
        repeat split; auto.
    + unfold bind, modify, ret. simpl. intros H. injection H as _ <-.
      repeat split; auto.
Qed.

Lemma update_parameters_frame w g tr g' :
  update_parameters w g = (tr, Ret (tt, g')) ->
  msg_settings g' = msg_settings g /\
  voice_search_paths g' = voice_search_paths g /\
  OpenjtalkDictionaryDirectory g' = OpenjtalkDictionaryDirectory g /\
  voice_language (msg_settings_old g') = voice_language (msg_settings g) /\
  voice_type (msg_settings_old g') = voice_type (msg_settings g) /\
  voice_name (msg_settings_old g') = voice_name (msg_settings g).
Proof.
  intros Hupd. unfold update_parameters in Hupd.
  unfold bind at 1 in Hupd.
  destruct (UPDATE_STRING_PARAMETER voice_language set_old_language
              (openjtalk_set_language w) g) as [tr1 [[[] g1]|t1]] eqn:E1;
    [|discriminate].
  unfold bind at 1 in Hupd.
  destruct (UPDATE_PARAMETER voice_type set_old_voice_type
              (openjtalk_set_voice w) g1) as [tr2 [[[] g2]|t2]] eqn:E2;
    [|discriminate].
  destruct (UPDATE_STRING_PARAMETER voice_name set_old_name
              (openjtalk_set_synthesis_voice w) g2) as [tr3 [[[] g3]|t3]] eqn:E3;
    [|discriminate].
  injection Hupd as _ <-.
  destruct (language_step_frame w g tr1 g1 E1) as (A1 & A2 & A3 & A4 & A5 & A6).
  destruct (voice_type_step_frame w g1 tr2 g2 E2) as (B1 & B2 & B3 & B4 & B5 & B6).
  destruct (voice_name_step_frame w g2 tr3 g3 E3) as (C1 & C2 & C3 & C4 & C5 & C6).
  repeat split; congruence.
Qed.

Lemma update_parameters_unchanged w g :
  voice_language (msg_settings_old g) = voice_language (msg_settings g) ->
  voice_type (msg_settings_old g) = voice_type (msg_settings g) ->
  voice_name (msg_settings_old g) = voice_name (msg_settings g) ->
  update_parameters w g = ([], Ret (tt, g)).
Proof.
  intros Hl Ht Hn.
  unfold update_parameters, UPDATE_STRING_PARAMETER, UPDATE_PARAMETER, bind, get.
  simpl.
  rewrite (proj2 (opt_string_eqb_eq _ _) Hl). simpl.
  rewrite Ht, Z.eqb_refl. simpl.
  rewrite (proj2 (opt_string_eqb_eq _ _) Hn). reflexivity.
Qed.

(** X10. The parameter update remembers the selection it has applied: once
    it has returned, running it again on the state it left, with the same
    settings, calls no setter, looks nothing up and tests no file, whatever
    the registry and the file system have become, and leaves the state as
    it is. *)
Theorem update_parameters_idempotent w g tr g' :
  update_parameters w g = (tr, Ret (tt, g')) ->
  msg_settings_old g' = msg_settings g /\
  forall w', update_parameters w' g' = ([], Ret (tt, g')).
Proof.
  intros Hupd.
  destruct (update_parameters_frame w g tr g' Hupd) as (Hs & _ & _ & Hl & Ht & Hn).
  split.
  - destruct (msg_settings_old g'), (msg_settings g). simpl in *. congruence.
  - intros w'. apply update_parameters_unchanged; congruence.
Qed.

Lemma update_parameters_idempotent_witness :
  exists tr g',
    update_parameters w_ok g_init = (tr, Ret (tt, g')) /\
    tr <> [] /\
    update_parameters (with_fopen None w_ok) g' = ([], Ret (tt, g')).
Proof.
  destruct (update_parameters w_ok g_init) as [tr [[[] g']|t]] eqn:E;
    [| vm_compute in E; discriminate E].
  exists tr, g'. split; [reflexivity|].
  split.
  - vm_compute in E. injection E as <- _. discriminate.
  - apply (update_parameters_idempotent w_ok g_init tr g' E).
Defined.

(** X11. A speak request that returns leaves the module in the state in
    which its parameter update left it: the search paths, the dictionary
    directory and the settings of the request are untouched, and the
    remembered settings are those of the request. *)
Theorem speak_request_frame w data g tr g' :
  module_speak_sync w data g = (tr, Ret (tt, g')) ->
  (exists tr0, update_parameters w g = (tr0, Ret (tt, g'))) /\
  voice_search_paths g' = voice_search_paths g /\
  OpenjtalkDictionaryDirectory g' = OpenjtalkDictionaryDirectory g /\
  msg_settings g' = msg_settings g /\
  msg_settings_old g' = msg_settings g.
Proof.
  intros Hrun.
  destruct (module_speak_sync_cases w data g)
    as (tr0 & Hsel & [(t & _ & E)|(g1 & p & Hupd & Htaken & E)]);
    rewrite E in Hrun; [discriminate|].
  injection Hrun as _ Hres.
  assert (g1 = g') as <-.
  { destruct p; simpl in Hres; try discriminate; injection Hres; auto. }
  destruct (update_parameters_frame w g tr0 g1 Hupd)
    as (Hs & Hp & Hd & Hl & Ht & Hn).
  split; [exists tr0; exact Hupd|].
  repeat split; auto.
  destruct (msg_settings_old g1), (msg_settings g). simpl in *. congruence.
Qed.

Lemma speak_request_frame_witness :
  exists g',
    snd (module_speak_sync (with_pclose_status 2 w_ok) "hello" g_init)
      = Ret (tt, g') /\
    voice_search_paths g' = ["/voices/$VOICE.htsvoice"] /\
    msg_settings_old g' = settings_ja.
Proof.
  destruct (module_speak_sync (with_pclose_status 2 w_ok) "hello" g_init)
    as [tr [[[] g']|t]] eqn:E; [| vm_compute in E; discriminate E].
  destruct (speak_request_frame _ _ _ tr g' E) as (_ & Hp & _ & _ & Ho).
  exists g'. split; [reflexivity|]. split; assumption.
Defined.

(** X15. That the resolved path is the one the template search yields for
    the current voice identifier is kept by the parameter update, and so by
    every speak request that returns; on such a state a request is refused
    with [module_speak_error] exactly when no template yields an existing
    file for the voice identifier that the update left. *)
Theorem path_is_current_kept w data g tr g' :
  path_is_current w g ->
  module_speak_sync w data g = (tr, Ret (tt, g')) ->
  path_is_current w g' /\
  (count is_speak_error tr = 1%nat <->
   resolved_path w (voice_search_paths g') (openjtalk_msg_voice_str g') = None).
Proof.
  intros Hinv Hrun.
  destruct (module_speak_sync_cases w data g)
    as (tr0 & Hsel & [(t & _ & E)|(g1 & p & Hupd & Htaken & E)]);
    rewrite E in Hrun; [discriminate|].
  injection Hrun as <- Hres.
  assert (g1 = g') as <-.
  { destruct p; simpl in Hres; try discriminate; injection Hres; auto. }
  assert (Hcur : path_is_current w g1).
  { destruct (update_parameters_steps w g tr0 _ Hupd)
      as (tr1 & g1' & ran1 & H1 & Hran1 & Hs1 & Hp1 & Ht1 & Hn1 & Hyes1 & Hno1
          & [(_ & _ & _ & Hr)
            |(tr2 & g2 & ran2 & tr3 & g3 & ran3 & _ & Hr & Hran2 & Hs2 & Hp2 & Hn2
              & Hyes2 & Hno2 & Hran3 & Hs3 & Hp3 & Hg3 & Hyes3 & Hno3)]);
      [discriminate|].
    injection Hr as ->.
    assert (C1 : path_is_current w g1').
    { destruct ran1.
      - apply (Hyes1 eq_refl).
      - destruct (Hno1 eq_refl) as (_ & Hsame).
        exact (path_is_current_same w g g1' Hinv Hsame Hp1). }
    assert (C2 : path_is_current w g2).
    { destruct ran2.
      - apply (Hyes2 eq_refl).
      - destruct (Hno2 eq_refl) as (_ & Hsame).
        exact (path_is_current_same w g1' g2 C1 Hsame Hp2). }
    destruct ran3.
    - apply (Hyes3 eq_refl).
    - destruct (Hno3 eq_refl) as (_ & Hsame).
      exact (path_is_current_same w g2 g3 C2 Hsame Hp3). }
  split; [exact Hcur|].
  pose proof (path_reader_events w g1 p Htaken) as Hreader.
  unfold path_is_current in Hcur. rewrite <- Hcur.
  destruct p; simpl in Hres; try discriminate; simpl in Htaken.
  - split; [intros _; exact Htaken | intros _; count_both Hsel].
  - destruct Htaken as (Hsome & _).
    split; [intros H; exfalso; revert H; count_both Hsel | intros H; contradiction].
  - destruct Htaken as (Hsome & _).
    split; [intros H; exfalso; revert H; count_both Hsel | intros H; contradiction].
  - destruct Htaken as (Hsome & _).
    split; [intros H; exfalso; revert H; count_both Hsel | intros H; contradiction].
  - destruct Htaken as (Hsome & _).
    split; [intros H; exfalso; revert H; count_both Hsel | intros H; contradiction].
  - destruct Htaken as (Hsome & _).
    split; [intros H; exfalso; revert H; count_both Hsel | intros H; contradiction].
  - destruct Htaken as (Hsome & _).
    split; [intros H; exfalso; revert H; count_both Hsel | intros H; contradiction].
  - destruct Htaken as (Hsome & _).
    split; [intros H; exfalso; revert H; count_both Hsel | intros H; contradiction].
Qed.

Lemma path_is_current_kept_witness :
  path_is_current w_ok g_init /\
  exists g',
    snd (module_speak_sync w_ok "hello" g_init) = Ret (tt, g') /\
    path_is_current w_ok g'.
Proof.
  assert (Hinit : path_is_current w_ok g_init) by reflexivity.
  split; [exact Hinit|].
  destruct (module_speak_sync w_ok "hello" g_init) as [tr [[[] g']|t]] eqn:E;
    [| vm_compute in E; discriminate E].
  exists g'. split; [reflexivity|].
  apply (path_is_current_kept w_ok "hello" g_init tr g' Hinit E).
Defined.

(** ** Voice resolver *)

Lemma prefix_placeholder_no_dollar c s :
  Ascii.eqb c dollar = false -> String.prefix "$VOICE" (String c s) = false.
Proof.
  intros Hc.
  change (String.prefix "$VOICE" (String c s))
    with (if ascii_dec "$" c then String.prefix "VOICE" s else false).
  destruct (ascii_dec "$" c) as [<-|Hne]; [|reflexivity].
  discriminate Hc.
Qed.

Lemma prefix_append s1 s2 : String.prefix s1 (String.append s1 s2) = true.
Proof.
  induction s1 as [|c s1 IH].
  - destruct s2; reflexivity.
  - change (String.prefix (String c s1) (String.append (String c s1) s2))
      with (if ascii_dec c c then String.prefix s1 (String.append s1 s2) else false).
    destruct (ascii_dec c c) as [_|Hne]; [exact IH | exfalso; apply Hne; reflexivity].
Qed.

Lemma g_string_replace_no_dollar voice s :
  no_dollar s = true -> g_string_replace s "$VOICE" voice = s.
Proof.
  unfold g_string_replace.
  induction s as [|c s IH]; intros H; [reflexivity|].
  simpl in H. apply andb_true_iff in H. destruct H as [Hc Hs].
  apply negb_true_iff in Hc.
  cbn [g_string_replace_from].
  rewrite (prefix_placeholder_no_dollar c s Hc).
  rewrite (IH Hs). reflexivity.
Qed.

Lemma g_string_replace_skip find replace s1 s2 :
  g_string_replace_from (String.length s1) find replace (String.append s1 s2)
  = g_string_replace_from 0 find replace s2.
Proof.
  induction s1 as [|c s1 IH]; simpl.
  - destruct s2; reflexivity.
  - exact IH.
Qed.

(** X12. The substitution of the placeholder.  A template without [$] is
    used as it is.  In a template that holds [$VOICE] after a part without
    [$], the placeholder is replaced by the voice identifier, which is not
    scanned again, and the substitution goes on in the rest. *)
Theorem substituted_placeholder voice :
  (forall template,
     no_dollar template = true -> substituted voice template = template) /\
  (forall pre post,
     no_dollar pre = true ->
     substituted voice (String.append pre (String.append "$VOICE" post))
     = String.append pre (String.append voice (substituted voice post))).
Proof.
  split.
  - intros template H. apply g_string_replace_no_dollar. exact H.
  - intros pre post. unfold substituted, g_string_replace.
    induction pre as [|c pre IH]; intros H.
    + change (String.append "" (String.append "$VOICE" post))
        with (String "$" (String.append "VOICE" post)).
      cbn [g_string_replace_from].
      assert (Hp : String.prefix "$VOICE" (String "$" (String.append "VOICE" post))
                   = true).
      { exact (prefix_append "$VOICE" post). }
      rewrite Hp.
      change (String.length "$VOICE" - 1)%nat with (String.length "VOICE").
      rewrite g_string_replace_skip. reflexivity.
    + simpl in H. apply andb_true_iff in H. destruct H as [Hc Hs].
      apply negb_true_iff in Hc.
      change (String.append (String c pre) (String.append "$VOICE" post))
        with (String c (String.append pre (String.append "$VOICE" post))).
      cbn [g_string_replace_from].
      rewrite (prefix_placeholder_no_dollar c _ Hc).
      rewrite (IH Hs). reflexivity.
Qed.

Lemma substituted_placeholder_witness :
  substituted "female1" "/voices/$VOICE.htsvoice" = "/voices/female1.htsvoice".
Proof.
  destruct (substituted_placeholder "female1") as (Hnone & Hone).
  change "/voices/$VOICE.htsvoice"
    with (String.append "/voices/" (String.append "$VOICE" ".htsvoice")).
  rewrite (Hone "/voices/" ".htsvoice" eq_refl).
  rewrite (Hnone ".htsvoice" eq_refl). reflexivity.
Defined.

Lemma find_snoc {A} (f : A -> bool) l x :
  find f (l ++ [x]) =
    match find f l with
    | Some y => Some y
    | None => if f x then Some x else None
    end.
Proof.
  induction l as [|a l IH]; simpl.
  - reflexivity.
  - destruct (f a); [reflexivity | exact IH].
Qed.

(** X13. Search paths have the priority of their order in the
    configuration: a further [VoiceFileSearchPath] line does not change the
    path that is resolved for a voice for which one was found already, and
    for a voice without one it resolves its own substituted path if that
    file exists. *)
Theorem search_path_appended w g template voice tr g1 :
  openjtalk_msg_voice_str g = Some voice ->
  update_htsvoice_path w g = (tr, Ret (tt, g1)) ->
  exists tr' g2,
    update_htsvoice_path w (VoiceFileSearchPath_cb template g) = (tr', Ret (tt, g2)) /\
    (forall p, openjtalk_htsvoice_path g1 = Some p ->
               openjtalk_htsvoice_path g2 = Some p) /\
    (openjtalk_htsvoice_path g1 = None ->
     openjtalk_htsvoice_path g2 =
       if g_file_test w (substituted voice template)
       then Some (substituted voice template) else None).
Proof.
  intros Hv Hrun.
  destruct (update_htsvoice_path_run w g)
    as (tr1 & g1' & Hrun1 & _ & _ & _ & _ & _ & _ & Hpath1).
  rewrite Hrun1 in Hrun. injection Hrun as _ <-.
  destruct (update_htsvoice_path_run w (VoiceFileSearchPath_cb template g))
    as (tr2 & g2 & Hrun2 & _ & _ & _ & _ & _ & _ & Hpath2).
  exists (EvUpdateHtsvoicePath :: tr2), g2. split; [exact Hrun2|].
  simpl in Hpath2. rewrite Hv in Hpath1, Hpath2.
  rewrite find_snoc in Hpath2.
  destruct (find (fun t => g_file_test w (substituted voice t))
              (voice_search_paths g)) as [t|]; simpl in *.
  - split; [intros p Hp; congruence|]. rewrite Hpath1. discriminate.
  - split; [rewrite Hpath1; discriminate|]. intros _.
    rewrite Hpath2.
    destruct (g_file_test w (substituted voice template)); reflexivity.
Qed.

Lemma search_path_appended_witness :
  exists tr g2,
    update_htsvoice_path w_ok
      (VoiceFileSearchPath_cb "/usr/share/$VOICE.htsvoice"
         (set_msg_voice_str (Some "female1") g_init)) = (tr, Ret (tt, g2)) /\
    openjtalk_htsvoice_path g2 = Some "/voices/female1.htsvoice".
Proof.
  destruct (update_htsvoice_path w_ok (set_msg_voice_str (Some "female1") g_init))
    as [tr [[[] g1]|t]] eqn:E; [| vm_compute in E; discriminate E].
  destruct (search_path_appended w_ok (set_msg_voice_str (Some "female1") g_init)
              "/usr/share/$VOICE.htsvoice" "female1" tr g1 eq_refl E)
    as (tr' & g2 & Hrun & Hkeep & _).
  exists tr', g2. split; [exact Hrun|].
  apply Hkeep. vm_compute in E. injection E as _ <-. reflexivity.
Defined.

Lemma update_htsvoice_path_loop_tests w voice paths g :
  (count is_file_test (fst (update_htsvoice_path_loop w voice paths g))
   <= List.length paths)%nat /\
  (forallb is_file_test (fst (update_htsvoice_path_loop w voice paths g)) = true) /\
  forall tr1 p tr2,
    fst (update_htsvoice_path_loop w voice paths g)
      = tr1 ++ EvFileTest p true :: tr2 ->
    tr2 = [] /\
    exists g', snd (update_htsvoice_path_loop w voice paths g) = Ret (tt, g') /\
               openjtalk_htsvoice_path g' = Some p.
Proof.
  induction paths as [|t rest IH]; simpl.
  - split; [unfold count; simpl; lia|]. split; [reflexivity|].
    intros tr1 p tr2 H. destruct tr1; discriminate.
  - unfold bind, emit, modify. simpl.
    destruct (g_file_test w (g_string_replace t "$VOICE" voice)) eqn:Ef; simpl.
    + split; [unfold count; simpl; lia|]. split; [reflexivity|].
      intros tr1 p tr2 H.
      destruct tr1 as [|e tr1]; simpl in H.
      * injection H as <- <-. split; [reflexivity|].
        eexists. split; reflexivity.
      * injection H as _ H. destruct tr1; discriminate.
    + destruct IH as (IHc & IHf & IHs).
      destruct (update_htsvoice_path_loop w voice rest g) as [tr r] eqn:E.
      simpl in *.
      split; [rewrite count_cons; simpl; lia|]. split; [exact IHf|].
      intros tr1 p tr2 H.
      destruct tr1 as [|e tr1]; simpl in H.
      * injection H as _ Hb _. discriminate.
      * injection H as _ H. exact (IHs tr1 p tr2 H).
Qed.

(** X14. The template search stops at the first file that exists: it
    tests at most one file per template, a test that succeeds is the last
    call of the run, and its path is the one that is resolved; without a
    voice identifier no file is tested and no path is resolved. *)
Theorem update_htsvoice_path_stops w g tr g' :
  update_htsvoice_path w g = (tr, Ret (tt, g')) ->
  (count is_file_test tr <= List.length (voice_search_paths g))%nat /\
  (forall tr1 p tr2,
     tr = tr1 ++ EvFileTest p true :: tr2 ->
     tr2 = [] /\ openjtalk_htsvoice_path g' = Some p) /\
  (openjtalk_msg_voice_str g = None ->
   count is_file_test tr = 0%nat /\ openjtalk_htsvoice_path g' = None).
Proof.
  unfold update_htsvoice_path, bind, emit, modify, get, DBG. simpl.
  destruct (openjtalk_msg_voice_str g) as [voice|] eqn:Ev.
  - destruct (update_htsvoice_path_loop_tests w voice (voice_search_paths g)
                (set_htsvoice_path None g)) as (Hc & _ & Hs).
    destruct (update_htsvoice_path_loop w voice (voice_search_paths g)
                (set_htsvoice_path None g)) as [tr0 [[[] g0]|t]] eqn:E;
      simpl in *; intros H; [|discriminate].
    injection H as <- <-.
    split; [rewrite count_cons; simpl; exact Hc|].
    split; [|discriminate].
    intros tr1 p tr2 H.
    destruct tr1 as [|e tr1]; simpl in H; [discriminate|].
    injection H as _ H.
    destruct (Hs tr1 p tr2 H) as (Hnil & g1 & Hg1 & Hp).
    injection Hg1 as <-. split; assumption.
  - simpl. intros H. injection H as <- <-.
    split; [unfold count; simpl; lia|].
    split.
    + intros tr1 p tr2 H.
      destruct tr1 as [|e tr1]; simpl in H; [discriminate|].
      injection H as _ H.
      destruct tr1 as [|e' tr1]; simpl in H; [discriminate|].
      injection H as _ H. destruct tr1; discriminate.
    + intros _. split; reflexivity.
Qed.

Lemma update_htsvoice_path_stops_witness :
  exists tr g',
    update_htsvoice_path w_ok
      (VoiceFileSearchPath_cb "/usr/share/$VOICE.htsvoice"
         (set_msg_voice_str (Some "female1") g_init)) = (tr, Ret (tt, g')) /\
    count is_file_test tr = 1%nat /\
    openjtalk_htsvoice_path g' = Some "/voices/female1.htsvoice".
Proof.
  destruct (update_htsvoice_path w_ok
              (VoiceFileSearchPath_cb "/usr/share/$VOICE.htsvoice"
                 (set_msg_voice_str (Some "female1") g_init)))
    as [tr [[[] g']|t]] eqn:E; [| vm_compute in E; discriminate E].
  destruct (update_htsvoice_path_stops _ _ tr g' E) as (_ & Hlast & _).
  exists tr, g'. split; [reflexivity|].
  assert (Htr : tr = [EvUpdateHtsvoicePath] ++
                     EvFileTest "/voices/female1.htsvoice" true :: []).
  { vm_compute in E. injection E as <- _. reflexivity. }
  split.
  - rewrite Htr. reflexivity.
  - exact (proj2 (Hlast _ _ _ Htr)).
Defined.

(** ** Acceptance of a file and of a track *)

(** X16. The reader accepts a file exactly when it holds the 44 bytes of
    the header, a channel count and a byte width other than zero, and the
    whole frames that its data byte length announces; nothing else of the
    file is examined. *)
Theorem extract_succeeds_iff f :
  (exists tr track fp', extract (open_file f) = (tr, Ret (inr track, fp'))) <->
  (44 <= file_size f /\ 1 <= header_channels f /\ 8 <= header_bits f /\
   44 + block_size f <= file_size f).
Proof.
  split.
  - intros (tr & track & fp' & H).
    destruct (extract_success_inv f tr track fp' H) as (A & B & C & D & _).
    auto.
  - intros (A & B & C & D).
    destruct (extract_ok f A B C D) as [fp' H]. eauto.
Qed.

Lemma extract_succeeds_iff_witness :
  (exists tr track fp',
     extract (open_file wav_mono12) = (tr, Ret (inr track, fp'))) /\
  ~ (exists tr track fp',
       extract (open_file wav_truncated) = (tr, Ret (inr track, fp'))).
Proof.
  split.
  - apply (proj2 (extract_succeeds_iff wav_mono12)).
    repeat split; apply Z.leb_le; vm_compute; reflexivity.
  - intros H. apply (proj1 (extract_succeeds_iff wav_truncated)) in H.
    destruct H as (_ & _ & _ & H). vm_compute in H. apply H. reflexivity.
Defined.

(** X17. Whatever happens in a speak request, at most one track is handed
    to playback; it is handed over as little-endian, and it is the track
    that the reader built from the file opened under the name of the
    temporary file, after the engine exited with 0. *)
Theorem speak_request_delivers_only w data g tr r :
  module_speak_sync w data g = (tr, r) ->
  (count is_tts_output tr <= 1)%nat /\
  forall track format,
    In (EvTtsOutput track format) tr ->
    format = SPD_AUDIO_LE /\
    exists template content,
      mkstemp w "/tmp/speechd-openjtalk-XXXXXX" = Some template /\
      fopen w template = Some content /\
      track = track_of content /\
      In (EvPclose 0) tr.
Proof.
  intros Hrun.
  destruct (module_speak_sync_cases w data g)
    as (tr0 & Hsel & [(t & _ & E)|(g1 & p & _ & Htaken & E)]);
    rewrite E in Hrun; injection Hrun as <- <-.
  - split.
    + rewrite count_cons, (count_zero _ _ _ Hsel) by not_of_kind. simpl. lia.
    + intros track format Hin. in_inv Hin.
  - pose proof (path_reader_events w g1 p Htaken) as Hreader.
    split.
    + destruct p; count_both Hsel.
    + intros track format Hin.
      destruct p; in_inv Hin.
      injection Hin as <- <-. split; [reflexivity|].
      destruct Htaken as (_ & Htmp & _ & _ & _ & content & fp' & Hopen & Ex).
      destruct (extract_success_inv content reader _ fp' Ex)
        as (_ & _ & _ & _ & Htrack & _).
      exists template, content.
      repeat split; auto.
      right. apply in_or_app. right. simpl. tauto.
Qed.

Lemma speak_request_delivers_only_witness :
  (count is_tts_output (fst (module_speak_sync w_ok "hello" g_init)) <= 1)%nat /\
  forall track format,
    In (EvTtsOutput track format) (fst (module_speak_sync w_ok "hello" g_init)) ->
    format = SPD_AUDIO_LE.
Proof.
  destruct (speak_request_delivers_only w_ok "hello" g_init
              (fst (module_speak_sync w_ok "hello" g_init))
              (snd (module_speak_sync w_ok "hello" g_init)))
    as (Hone & Honly).
  - destruct (module_speak_sync w_ok "hello" g_init); reflexivity.
  - split; [exact Hone|].
    intros track format Hin. exact (proj1 (Honly track format Hin)).
Defined.

(** ** The temporary file *)


(** The parameter update returns unless it reaches the assertion. *)
Lemma update_parameters_returns w g :
  ~ assertion_reached g ->
  exists tr g', update_parameters w g = (tr, Ret (tt, g')).
Proof.
  intros Hnot.
  destruct (update_parameters w g) as [tr [[[] g']|t]] eqn:E; [eauto|].
  exfalso. apply Hnot.
  destruct (update_parameters_trap_inv w g tr t E) as (_ & _ & Hl & Hch & Hn).
  split; [exact Hl | split; [exact Hch | exact Hn]].
Qed.





(** ** The language held by the module *)

Lemma language_step_language w g tr g1 :
  UPDATE_STRING_PARAMETER voice_language set_old_language
    (openjtalk_set_language w) g = (tr, Ret (tt, g1)) ->
  (language_changed g /\ language_set g ->
   openjtalk_msg_language g1 = voice_language (msg_settings g)) /\
  (~ (language_changed g /\ language_set g) ->
   openjtalk_msg_language g1 = openjtalk_msg_language g).
Proof.
  unfold UPDATE_STRING_PARAMETER, language_changed, language_set.
  unfold bind at 1. unfold get at 1. cbv iota beta.
  destruct (opt_string_eqb (voice_language (msg_settings_old g))
              (voice_language (msg_settings g))) eqn:Eq; simpl.
  - apply opt_string_eqb_eq in Eq. intros H. injection H as _ <-.
    split; [intros [Hc _]; congruence | reflexivity].
  - apply opt_string_eqb_neq in Eq.
    destruct (voice_language (msg_settings g)) as [lang|] eqn:El.
    + destruct (openjtalk_set_language_run w lang
                  (set_settings_old
                     (set_old_language (Some lang) (msg_settings_old g)) g))
        as (tr' & g' & Hrun & _ & _ & Hl & _).
      unfold bind, modify. simpl. rewrite Hrun. simpl.
      intros H. injection H as _ <-.
      split; [intros _; exact Hl|].
      intros Hnot. exfalso. apply Hnot. split; congruence.
    + unfold bind, modify, ret. simpl. intros H. injection H as _ <-.
      split; [intros [_ Hs]; congruence | reflexivity].
Qed.

Lemma voice_type_step_language w g tr g1 :
  UPDATE_PARAMETER voice_type set_old_voice_type (openjtalk_set_voice w) g
    = (tr, Ret (tt, g1)) ->
  openjtalk_msg_language g1 = openjtalk_msg_language g.
Proof.
  intros H.
  destruct (voice_type_step w g)
    as [(_ & _ & Htrap)
       |(tr' & g' & ran & Hrun & _ & _ & _ & _ & Hyes & Hno)].
  - rewrite Htrap in H. discriminate.
  - rewrite Hrun in H. injection H as _ <-.
    destruct ran.
    + destruct (Hyes eq_refl) as (_ & _ & lang & Hl & Hl' & _). congruence.
    + destruct (Hno eq_refl) as (_ & (_ & Hl & _)). exact Hl.
Qed.

Lemma voice_name_step_language w g tr g1 :
  UPDATE_STRING_PARAMETER voice_name set_old_name
    (openjtalk_set_synthesis_voice w) g = (tr, Ret (tt, g1)) ->
  openjtalk_msg_language g1 = openjtalk_msg_language g.
Proof.
  unfold UPDATE_STRING_PARAMETER.
  unfold bind at 1. unfold get at 1. cbv iota beta.
  destruct (opt_string_eqb (voice_name (msg_settings_old g))
              (voice_name (msg_settings g))) eqn:Eq; simpl.
  - intros H. injection H as _ <-. reflexivity.
  - destruct (voice_name (msg_settings g)) as [n|] eqn:En.
    + destruct (openjtalk_set_synthesis_voice_run w n
                  (set_settings_old
                     (set_old_name (Some n) (msg_settings_old g)) g) n)
        as [(_ & Hrun)|(_ & tr' & g' & Hrun & _ & _ & _ & Hl & _)].
      * simpl. exact En.
      * unfold bind, modify. simpl. rewrite Hrun. simpl.
        intros H. injection H as _ <-. reflexivity.
      * unfold bind, modify. simpl. rewrite Hrun. simpl.
        intros H. injection H as _ <-. exact Hl.
    + unfold bind, modify, ret. simpl. intros H. injection H as _ <-.
      reflexivity.
Qed.

(** The language that a parameter update leaves in the module: the one of
    the settings when it changed to a set value, the one held before
    otherwise. *)
Lemma update_parameters_language w g tr g' :
  update_parameters w g = (tr, Ret (tt, g')) ->
  (language_changed g /\ language_set g ->
   openjtalk_msg_language g' = voice_language (msg_settings g)) /\
  (~ (language_changed g /\ language_set g) ->
   openjtalk_msg_language g' = openjtalk_msg_language g).
Proof.
  intros Hupd. unfold update_parameters in Hupd.
  unfold bind at 1 in Hupd.
  destruct (UPDATE_STRING_PARAMETER voice_language set_old_language
              (openjtalk_set_language w) g) as [tr1 [[[] g1]|t1]] eqn:E1;
    [|discriminate].
  unfold bind at 1 in Hupd.
  destruct (UPDATE_PARAMETER voice_type set_old_voice_type
              (openjtalk_set_voice w) g1) as [tr2 [[[] g2]|t2]] eqn:E2;
    [|discriminate].
  destruct (UPDATE_STRING_PARAMETER voice_name set_old_name
              (openjtalk_set_synthesis_voice w) g2) as [tr3 [[[] g3]|t3]] eqn:E3;
    [|discriminate].
  injection Hupd as _ <-.
  destruct (language_step_language w g tr1 g1 E1) as (Hyes & Hno).
  pose proof (voice_type_step_language w g1 tr2 g2 E2) as H2.
  pose proof (voice_name_step_language w g2 tr3 g3 E3) as H3.
  split; intros H; [rewrite H3, H2; exact (Hyes H) | rewrite H3, H2; exact (Hno H)].
Qed.

(** ** Changes of the selection *)

(** When a parameter update that returns runs [update_htsvoice_path], and
    for which voice identifier. *)
Lemma update_parameters_resolution w g tr g' :
  update_parameters w g = (tr, Ret (tt, g')) ->
  (resolution_triggered w g ->
   In EvUpdateHtsvoicePath tr /\
   path_is_current w g' /\
   voice_search_paths g' = voice_search_paths g /\
   (name_changed g /\ name_registered w g ->
    openjtalk_msg_voice_str g' = voice_name (msg_settings g)) /\
   (~ (name_changed g /\ name_registered w g) ->
    exists lang,
      openjtalk_msg_language g' = Some lang /\
      openjtalk_msg_voice_str g' =
        module_getvoice w lang (voice_type (msg_settings g)))) /\
  (~ resolution_triggered w g ->
   count is_update_path tr = 0%nat /\ same_voice g g').
Proof.
  intros Hrun.
  destruct (update_parameters_steps w g tr _ Hrun)
    as (tr1 & g1 & ran1 & H1 & Hran1 & Hs1 & Hp1 & Ht1 & Hn1 & Hyes1 & Hno1
        & [(_ & _ & _ & Hr)
          |(tr2 & g2 & ran2 & tr3 & g3 & ran3 & -> & Hr & Hran2 & Hs2 & Hp2 & Hn2
            & Hyes2 & Hno2 & Hran3 & Hs3 & Hp3 & Hg3 & Hyes3 & Hno3)]);
    [discriminate|].
  injection Hr as ->.
  assert (Htype : voice_type_changed g1 <-> voice_type_changed g).
  { unfold voice_type_changed. rewrite Hs1, Ht1. tauto. }
  assert (Hname : name_changed g2 /\ name_registered w g2 <->
                  name_changed g /\ name_registered w g).
  { unfold name_changed, name_registered. rewrite Hs2, Hs1, Hn2, Hn1. tauto. }
  rewrite Htype in Hran2. rewrite Hname in Hran3.
  rewrite Hs1 in Hyes2. rewrite Hs2, Hs1 in Hyes3.
  assert (Hpaths : voice_search_paths g3 = voice_search_paths g) by congruence.
  unfold resolution_triggered.
  split.
  - intros Htrig.
    destruct ran3.
    + destruct (Hyes3 eq_refl) as (Hin & Hcur & Hv).
      split; [apply in_or_app; right; apply in_or_app; right; exact Hin|].
      split; [exact Hcur|]. split; [exact Hpaths|].
      split; [intros _; exact Hv|].
      intros Hnot. exfalso. apply Hnot. apply Hran3. reflexivity.
    + destruct (Hno3 eq_refl) as (_ & Hsame3).
      assert (Hnot3 : ~ (name_changed g /\ name_registered w g)).
      { intros H. apply Hran3 in H. discriminate. }
      destruct ran2.
      * destruct (Hyes2 eq_refl) as (Hin & Hcur & lang & _ & Hl & Hv).
        split; [apply in_or_app; right; apply in_or_app; left; exact Hin|].
        split; [exact (path_is_current_same w g2 g3 Hcur Hsame3 Hp3)|].
        split; [exact Hpaths|].
        split; [intros H; contradiction|].
        intros _. exists lang. destruct Hsame3 as (Sv & Sl & _).
        split; congruence.
      * destruct (Hno2 eq_refl) as (_ & Hsame2).
        assert (Hnot2 : ~ voice_type_changed g).
        { intros H. apply Hran2 in H. discriminate. }
        destruct ran1.
        -- destruct (Hyes1 eq_refl) as (Hin & Hcur & lang & Hl & Hv).
           split; [apply in_or_app; left; exact Hin|].
           split.
           { apply (path_is_current_same w g2 g3); [|exact Hsame3|exact Hp3].
             exact (path_is_current_same w g1 g2 Hcur Hsame2 Hp2). }
           split; [exact Hpaths|].
           split; [intros H; contradiction|].
           intros _. exists lang.
           destruct Hsame3 as (Sv3 & Sl3 & _). destruct Hsame2 as (Sv2 & Sl2 & _).
           split; congruence.
        -- exfalso. destruct Htrig as [H|[H|H]].
           ++ apply Hran1 in H. discriminate.
           ++ contradiction.
           ++ contradiction.
  - intros Hnot.
    assert (E1 : ran1 = false).
    { destruct ran1; [|reflexivity]. exfalso. apply Hnot. left.
      apply Hran1. reflexivity. }
    assert (E2 : ran2 = false).
    { destruct ran2; [|reflexivity]. exfalso. apply Hnot. right. left.
      apply Hran2. reflexivity. }
    assert (E3 : ran3 = false).
    { destruct ran3; [|reflexivity]. exfalso. apply Hnot. right. right.
      apply Hran3. reflexivity. }
    destruct (Hno1 E1) as (-> & Hsame1).
    destruct (Hno2 E2) as (-> & Hsame2).
    destruct (Hno3 E3) as (Hcount & Hsame3).
    split; [exact Hcount|].
    exact (same_voice_trans _ _ _ Hsame1 (same_voice_trans _ _ _ Hsame2 Hsame3)).
Qed.


(** C7 (as amended).  The parameter update returns unless it reaches the
    assertion of [openjtalk_set_voice].  When it returns, the module holds
    the language of the settings if that changed to a set value, and the
    language it held before otherwise.  It resolves the voice path again
    exactly when the language changed to a set value, the voice type
    changed, or the explicit voice name changed to a registered voice; the
    path is then the one the template search yields for the voice
    identifier that the setters left: the explicit name when the name
    triggered, and otherwise the identifier that the registry gives for the
    voice type of the settings and the language the module then holds (the
    language of the settings if that triggered, the language held before if
    not), also when an unchanged registered name is set.  Any other change,
    a voice name that is not registered in particular, leaves language,
    identifier and resolved path as they were. *)
Theorem C7_selection_change_recomputes w g :
  (~ assertion_reached g ->
   exists tr g', update_parameters w g = (tr, Ret (tt, g'))) /\
  forall tr g',
    update_parameters w g = (tr, Ret (tt, g')) ->
    (language_changed g /\ language_set g ->
     openjtalk_msg_language g' = voice_language (msg_settings g)) /\
    (~ (language_changed g /\ language_set g) ->
     openjtalk_msg_language g' = openjtalk_msg_language g) /\
    (resolution_triggered w g ->
     In EvUpdateHtsvoicePath tr /\
     path_is_current w g' /\
     voice_search_paths g' = voice_search_paths g /\
     (name_changed g /\ name_registered w g ->
      openjtalk_msg_voice_str g' = voice_name (msg_settings g)) /\
     (~ (name_changed g /\ name_registered w g) ->
      language_changed g /\ language_set g ->
      exists lang,
        voice_language (msg_settings g) = Some lang /\
        openjtalk_msg_voice_str g' =
          module_getvoice w lang (voice_type (msg_settings g))) /\
     (~ (name_changed g /\ name_registered w g) ->
      ~ (language_changed g /\ language_set g) ->
      exists lang,
        openjtalk_msg_language g = Some lang /\
        openjtalk_msg_voice_str g' =
          module_getvoice w lang (voice_type (msg_settings g)))) /\
    (~ resolution_triggered w g ->
     count is_update_path tr = 0%nat /\ same_voice g g').
Proof.
  split; [apply update_parameters_returns|].
  intros tr g' Hrun.
  destruct (update_parameters_language w g tr g' Hrun) as (Lyes & Lno).
  destruct (update_parameters_resolution w g tr g' Hrun) as (Ryes & Rno).
  split; [exact Lyes|]. split; [exact Lno|]. split; [|exact Rno].
  intros Htrig.
  destruct (Ryes Htrig) as (Hin & Hcur & Hpaths & Hname & Htype).
  do 4 (split; [assumption|]).
  split.
  - intros Hn Hl. destruct (Htype Hn) as (lang & Hlang & Hv).
    exists lang. split; [|exact Hv]. rewrite <- (Lyes Hl). exact Hlang.
  - intros Hn Hl. destruct (Htype Hn) as (lang & Hlang & Hv).
    exists lang. split; [|exact Hv]. rewrite <- (Lno Hl). exact Hlang.
Qed.

Lemma C7_selection_change_recomputes_witness :
  (resolution_triggered w_ok g_init /\
   exists tr g',
     update_parameters w_ok g_init = (tr, Ret (tt, g')) /\
     In EvUpdateHtsvoicePath tr /\
     openjtalk_msg_language g' = Some "ja" /\
     openjtalk_msg_voice_str g' = Some "female1" /\
     path_is_current w_ok g') /\
  (openjtalk_msg_language (set_msg_settings settings_en g_named) = Some "ja" /\
   openjtalk_htsvoice_path (set_msg_settings settings_en g_named)
     = Some "/voices/male1.htsvoice" /\
   exists tr g',
     update_parameters w_ok (set_msg_settings settings_en g_named)
       = (tr, Ret (tt, g')) /\
     In EvUpdateHtsvoicePath tr /\
     openjtalk_msg_language g' = Some "en" /\
     openjtalk_msg_voice_str g' = module_getvoice w_ok "en" 4 /\
     openjtalk_htsvoice_path g' = None).
Proof.
  split.
  - assert (Htrig : resolution_triggered w_ok g_init).
    { left. split; discriminate. }
    split; [exact Htrig|].
    destruct (C7_selection_change_recomputes w_ok g_init) as (Hret & Hpost).
    destruct Hret as (tr & g' & Hrun).
    { intros (_ & _ & Hnot). apply Hnot. split; discriminate. }
    destruct (Hpost tr g' Hrun) as (Hlang & _ & Hyes & _).
    destruct (Hyes Htrig) as (Hin & Hcur & _ & _ & Hvoice & _).
    exists tr, g'. split; [exact Hrun|]. split; [exact Hin|].
    split; [apply Hlang; split; discriminate|].
    split; [|exact Hcur].
    destruct Hvoice as (lang & Hl & Hv).
    + intros (_ & n & Hn & _). discriminate Hn.
    + split; discriminate.
    + injection Hl as <-. exact Hv.
  - split; [reflexivity|]. split; [reflexivity|].
    assert (Htrig : resolution_triggered w_ok (set_msg_settings settings_en g_named)).
    { left. split; discriminate. }
    destruct (C7_selection_change_recomputes w_ok
                (set_msg_settings settings_en g_named)) as (Hret & Hpost).
    destruct Hret as (tr & g' & Hrun).
    { intros (Hnone & _). discriminate Hnone. }
    destruct (Hpost tr g' Hrun) as (Hlang & _ & Hyes & _).
    destruct (Hyes Htrig) as (Hin & Hcur & _ & _ & Hvoice & _).
    exists tr, g'. split; [exact Hrun|]. split; [exact Hin|].
    split; [apply Hlang; split; discriminate|].
    destruct Hvoice as (lang & Hl & Hv).
    + intros (Hc & _). apply Hc. reflexivity.
    + split; discriminate.
    + injection Hl as <-. split; [exact Hv|].
      unfold path_is_current in Hcur. rewrite Hcur, Hv. reflexivity.
Defined.
